(** * cloudinary/api.py: the Admin API client, embedded in Rocq

    The module is a request builder: some thirty wrapper functions assemble
    a URI and a parameter set from keyword options and delegate to
    [call_api], which resolves the configuration, performs one HTTP request
    through a shared pool and turns the response into a [Response] or into
    an exception.

    Python values are a small inductive universe, keyword options are a
    finite map ([gmap string pyval]), dictionaries whose order is observable
    are insertion-ordered association lists, exceptions are an error result,
    and the network is a log of the requests handed to the HTTP client. *)

From Stdlib Require Import ZArith String Ascii List Bool Lia.
From stdpp Require Import gmap strings list fin_maps pretty.

Open Scope string_scope.
Open Scope list_scope.
Open Scope Z_scope.

Set Warnings "-register-all,-clear-no-such-hyp".

(** ** Python values *)

(** The values that reach this module: keyword options given by the
    caller, attributes of the configuration object and decoded JSON. A
    float is identified by its [repr] text. *)
Inductive pyval : Type :=
| PNone
| PBool (b : bool)
| PInt (n : Z)
| PFloat (text : string)
| PStr (s : string)
| PList (l : list pyval)
| PTuple (l : list pyval)
| PDict (d : list (string * pyval)).

(** Insertion-ordered dictionary with string keys. *)
Definition dict (A : Type) : Type := list (string * A).

(** [bool(v)] *)
Definition truthy (v : pyval) : bool :=
  match v with
  | PNone => false
  | PBool b => b
  | PInt n => negb (n =? 0)
  | PFloat t => negb (String.eqb t "0.0" || String.eqb t "-0.0")
  | PStr s => negb (String.eqb s EmptyString)
  | PList l | PTuple l => match l with [] => false | _ => true end
  | PDict d => match d with [] => false | _ => true end
  end.

(** [a or b] *)
Definition py_or (a b : pyval) : pyval := if truthy a then a else b.

(** [type(v).__name__] *)
Definition type_name (v : pyval) : string :=
  match v with
  | PNone => "NoneType"
  | PBool _ => "bool"
  | PInt _ => "int"
  | PFloat _ => "float"
  | PStr _ => "str"
  | PList _ => "list"
  | PTuple _ => "tuple"
  | PDict _ => "dict"
  end.

(** ** Dictionaries *)

Section Dict.
Context {A : Type}.

Fixpoint dict_get (k : string) (d : dict A) : option A :=
  match d with
  | [] => None
  | (k', v) :: d' => if String.eqb k k' then Some v else dict_get k d'
  end.

(** [d[k] = v]: an existing key keeps its position. *)
Fixpoint dict_set (k : string) (v : A) (d : dict A) : dict A :=
  match d with
  | [] => [(k, v)]
  | (k', v') :: d' =>
      if String.eqb k k' then (k', v) :: d' else (k', v') :: dict_set k v d'
  end.

(** [d.update(other)] *)
Definition dict_update (d other : dict A) : dict A :=
  fold_left (fun acc kv => dict_set (fst kv) (snd kv) acc) other d.

Definition dict_keys (d : dict A) : list string := map fst d.
End Dict.

(** ** Text *)

Definition upper_ascii (c : ascii) : ascii :=
  let n := nat_of_ascii c in
  if (Nat.leb 97 n && Nat.leb n 122)%bool then ascii_of_nat (n - 32) else c.

(** [s.upper()] on ASCII text. *)
Fixpoint upper (s : string) : string :=
  match s with
  | EmptyString => EmptyString
  | String c s' => String (upper_ascii c) (upper s')
  end.

(** [needle in hay] for two strings. *)
Fixpoint str_contains (needle hay : string) : bool :=
  String.prefix needle hay ||
  match hay with
  | EmptyString => false
  | String _ hay' => str_contains needle hay'
  end.

Fixpoint chars (s : string) : list string :=
  match s with
  | EmptyString => []
  | String c s' => String c EmptyString :: chars s'
  end.

Section Str.
(** [repr] of a string (quoting and escaping) is the interpreter's. *)
Variable repr_str : string -> string.

Definition bracket (l r : string) (items : list string) : string :=
  l +:+ String.concat ", " items +:+ r.

Fixpoint py_repr (v : pyval) : string :=
  match v with
  | PNone => "None"
  | PBool true => "True"
  | PBool false => "False"
  | PInt n => pretty n
  | PFloat t => t
  | PStr s => repr_str s
  | PList l => bracket "[" "]" (map py_repr l)
  | PTuple [x] => "(" +:+ py_repr x +:+ ",)"
  | PTuple l => bracket "(" ")" (map py_repr l)
  | PDict d =>
      bracket "{" "}"
        (map (fun kv => repr_str (fst kv) +:+ ": " +:+ py_repr (snd kv)) d)
  end.

(** [str(v)], which is also what [format] and [%s] insert. *)
Definition py_str (v : pyval) : string :=
  match v with
  | PStr s => s
  | _ => py_repr v
  end.
End Str.

(** [int(s)] for ASCII text: surrounding whitespace, an optional sign,
    decimal digits with single underscores between them. [None] stands for
    the [ValueError]. *)
Definition is_space (c : ascii) : bool :=
  let n := nat_of_ascii c in
  (Nat.leb 9 n && Nat.leb n 13)%bool || (Nat.leb 28 n && Nat.leb n 32)%bool.

Definition is_digit (c : ascii) : bool :=
  let n := nat_of_ascii c in (Nat.leb 48 n && Nat.leb n 57)%bool.

Fixpoint lstrip (s : string) : string :=
  match s with
  | String c s' => if is_space c then lstrip s' else s
  | EmptyString => EmptyString
  end.

Fixpoint rstrip (s : string) : string :=
  match s with
  | EmptyString => EmptyString
  | String c s' =>
      match rstrip s' with
      | EmptyString => if is_space c then EmptyString else String c EmptyString
      | r => String c r
      end
  end.

Fixpoint digits_value (s : string) (acc : Z) (after_digit : bool) : option Z :=
  match s with
  | EmptyString => if after_digit then Some acc else None
  | String c s' =>
      if is_digit c
      then digits_value s' (10 * acc + (Z.of_nat (nat_of_ascii c) - 48)) true
      else if (Ascii.eqb c "_" && after_digit)%bool
           then digits_value s' acc false
           else None
  end.

Definition py_int (s : string) : option Z :=
  match rstrip (lstrip s) with
  | String "-" s' => Z.opp <$> digits_value s' 0 false
  | String "+" s' => digits_value s' 0 false
  | s' => digits_value s' 0 false
  end.

(** ** Exceptions *)

(** The module's own taxonomy, the built-in classes the code can raise,
    and [Foreign] for whatever an external collaborator raises. *)
Inductive pyclass : Type :=
| Exception | TypeError | KeyError | ValueError | AttributeError
| Error | NotFound | NotAllowed | AlreadyExists | RateLimited
| BadRequest | GeneralError | AuthorizationRequired
| Foreign (name : string).

#[global] Instance pyclass_eq_dec : EqDecision pyclass.
Proof. solve_decision. Defined.

(** The class statement's base: [class NotFound(Error): pass]. *)
Definition base (c : pyclass) : option pyclass :=
  match c with
  | Exception => None
  | NotFound | NotAllowed | AlreadyExists | RateLimited
  | BadRequest | GeneralError | AuthorizationRequired => Some Error
  | _ => Some Exception
  end.

(** [issubclass(c, d)]; the hierarchy is three levels deep. *)
Definition issubclass (c d : pyclass) : bool :=
  bool_decide (c = d)
  || bool_decide (base c = Some d)
  || bool_decide (base c ≫= base = Some d).

Record exn : Type := mk_exn { exn_type : pyclass; exn_args : list pyval }.

Inductive result (A : Type) : Type :=
| Ok (a : A)
| Raise (e : exn).
Arguments Ok {A} a.
Arguments Raise {A} e.

#[global] Instance result_ret : MRet result := @Ok.
#[global] Instance result_bind : MBind result := fun A B f m =>
  match m with
  | Ok a => f a
  | Raise e => Raise e
  end.

#[global] Instance result_fmap : FMap result := fun A B f m =>
  match m with
  | Ok a => Ok (f a)
  | Raise e => Raise e
  end.

Definition raise_with {A : Type} (c : pyclass) (msg : string) : result A :=
  Raise (mk_exn c [PStr msg]).

Definition EXCEPTION_CODES : gmap Z pyclass :=
  <[400 := BadRequest]> (<[401 := AuthorizationRequired]> (<[403 := NotAllowed]>
  (<[404 := NotFound]> (<[409 := AlreadyExists]> (<[420 := RateLimited]>
  (<[500 := GeneralError]> ∅)))))).

(** ** Containers as the interpreter sees them *)

(** [for x in v] *)
Definition py_iter (v : pyval) : result (list pyval) :=
  match v with
  | PList l | PTuple l => Ok l
  | PStr s => Ok (map PStr (chars s))
  | PDict d => Ok (map PStr (dict_keys d))
  | _ => raise_with TypeError ("'" +:+ type_name v +:+ "' object is not iterable")
  end.

(** [key in v] for a string [key] *)
Definition py_contains (key : string) (v : pyval) : result bool :=
  match v with
  | PDict d => Ok (match dict_get key d with Some _ => true | None => false end)
  | PList l | PTuple l =>
      Ok (existsb (fun x => match x with PStr s => String.eqb s key | _ => false end) l)
  | PStr s => Ok (str_contains key s)
  | _ => raise_with TypeError
           ("argument of type '" +:+ type_name v +:+ "' is not iterable")
  end.

(** [v[key]] for a string [key] *)
Definition py_getitem (v : pyval) (key : string) : result pyval :=
  match v with
  | PDict d =>
      match dict_get key d with
      | Some x => Ok x
      | None => Raise (mk_exn KeyError [PStr key])
      end
  | PList _ => raise_with TypeError "list indices must be integers or slices, not str"
  | PTuple _ => raise_with TypeError "tuple indices must be integers or slices, not str"
  | PStr _ => raise_with TypeError "string indices must be integers"
  | _ => raise_with TypeError ("'" +:+ type_name v +:+ "' object is not subscriptable")
  end.

(** [sep.join(items)]: every item has to be a [str]. *)
Fixpoint join_items (i : nat) (items : list pyval) : result (list string) :=
  match items with
  | [] => Ok []
  | PStr s :: rest => cons s <$> join_items (S i) rest
  | v :: _ =>
      raise_with TypeError
        ("sequence item " +:+ pretty i +:+ ": expected str instance, "
           +:+ type_name v +:+ " found")
  end.

Definition str_join (sep : string) (v : pyval) : result string :=
  items ← py_iter v; String.concat sep <$> join_items 0 items.

(** ** The outside world *)

Inductive fields : Type :=
| FDict (d : dict pyval)
| FPairs (l : list (string * pyval)).

Definition field_keys (f : fields) : list string :=
  match f with
  | FDict d => dict_keys d
  | FPairs l => map fst l
  end.

(** The arguments of [urllib3.make_headers]. *)
Record headers : Type := make_headers { basic_auth : string; user_agent : string }.

(** One invocation of [_http.request(method, url, fields, headers, **kw)]. *)
Record request : Type := mk_request {
  req_method : string;
  req_url : string;
  req_fields : fields;
  req_headers : headers;
  req_timeout : option pyval
}.

(** What the code reads of a response; header names are lower-case, as
    the client's header dictionary matches them. *)
Record response : Type := mk_response {
  status : Z;
  resp_headers : gmap string string;
  data : string
}.

(** An exception object caught from the client: its class name, [str(e)]
    and its [message] attribute when the object has one. *)
Record caught : Type := mk_caught {
  class_name : string;
  text : string;
  message : option pyval
}.

Inductive transport : Type :=
| Responded (r : response)
| HTTPError (e : caught)
| SocketError (e : caught)
| Crashed (e : exn).

(** [cloudinary.config()] *)
Record Config : Type := mk_config {
  upload_prefix : pyval;
  cloud_name : pyval;
  api_key : pyval;
  api_secret : pyval
}.

(** The collaborators this module consumes as black boxes. *)
Record World : Type := mk_world {
  (** the service behind [_http.request], including reading [response.data] *)
  http : request -> transport;
  (** [json.loads(body.decode('utf-8'))]; [inl] carries [str] of the failure *)
  json_loads : string -> string + pyval;
  (** [cloudinary.get_user_agent()] *)
  get_user_agent : string;
  (** [repr] of a string and [%s] of a byte string *)
  repr_str : string -> string;
  bytes_str : string -> string;
  (** [email.utils.parsedate] *)
  parsedate : string -> pyval;
  (** [dict.update] with a non-empty sequence of items that are not a mapping *)
  update_from_items : list pyval -> result (list (pyval * pyval));
  (** [cloudinary.utils] *)
  generate_transformation_string : dict pyval -> result (pyval * pyval);
  build_array : pyval -> result pyval;
  encode_double_array : pyval -> result pyval;
  encode_dict : pyval -> result pyval;
  build_upload_params : gmap string pyval -> result (dict pyval);
  cleanup_params : dict pyval -> result (dict pyval);
  (** [json.dumps] *)
  json_dumps : pyval -> result string
}.

(** ** Effects: an error result over the log of requests sent *)

Definition M (A : Type) : Type := list request -> result A * list request.

#[global] Instance M_ret : MRet M := fun A a log => (Ok a, log).
#[global] Instance M_bind : MBind M := fun A B f m log =>
  match m log with
  | (Ok a, log') => f a log'
  | (Raise e, log') => (Raise e, log')
  end.

Definition lift {A : Type} (r : result A) : M A := fun log => (r, log).
Definition raise {A : Type} (c : pyclass) (args : list pyval) : M A :=
  lift (Raise (mk_exn c args)).

(** Run from an empty log: what the call yields and what it sent. *)
Definition run {A : Type} (m : M A) : result A * list request := m [].
Definition yields {A : Type} (m : M A) : result A := fst (run m).
Definition sent {A : Type} (m : M A) : list request := snd (run m).

(** ** The module *)

(** [class Response(dict)]: the items of the dictionary and the three
    attributes set by [__init__]. *)
Record Response : Type := mk_Response {
  items : list (pyval * pyval);
  rate_limit_allowed : Z;
  rate_limit_reset_at : pyval;
  rate_limit_remaining : Z
}.

(** [options.pop(key, dflt)] *)
Definition pop (key : string) (dflt : pyval) (options : gmap string pyval)
  : pyval * gmap string pyval :=
  (default dflt (options !! key), delete key options).

(** [{key: source[key] for key in keys if key in source}] *)
Definition only (source : gmap string pyval) (keys : list string) : dict pyval :=
  fold_left
    (fun acc key =>
       match source !! key with
       | Some v => dict_set key v acc
       | None => acc
       end)
    keys [].

Section Api.
Variable W : World.
Variable cfg : Config.

Definition str (v : pyval) : string := py_str (repr_str W) v.

(** [response.headers[name]] *)
Definition header (r : response) (name : string) : result string :=
  match resp_headers r !! name with
  | Some v => Ok v
  | None => Raise (mk_exn KeyError [PStr name])
  end.

(** [int(s)] *)
Definition int (s : string) : result Z :=
  match py_int s with
  | Some n => Ok n
  | None =>
      raise_with ValueError
        ("invalid literal for int() with base 10: " +:+ repr_str W s)
  end.

(** [self.update(result)] on the fresh, empty dictionary. *)
Definition update_items (decoded : pyval) : result (list (pyval * pyval)) :=
  match decoded with
  | PDict d => Ok (map (fun kv => (PStr (fst kv), snd kv)) (dict_update [] d))
  | _ =>
      elements ← py_iter decoded;
      match elements with
      | [] => Ok []
      | _ => update_from_items W elements
      end
  end.

(** [Response.__init__(self, result, response)]; [call_api], its only
    caller, passes no keyword arguments. *)
Definition Response_init (decoded : pyval) (r : response) : result Response :=
  body ← update_items decoded;
  limit ← header r "x-featureratelimit-limit";
  allowed ← int limit;
  reset ← header r "x-featureratelimit-reset";
  let reset_at := parsedate W reset in
  remaining ← header r "x-featureratelimit-remaining";
  remaining ← int remaining;
  Ok (mk_Response body allowed reset_at remaining).

(** [_http.request(...)] followed by [response.data]: the request is
    logged, whatever comes of it. *)
Definition send (rq : request) : M transport :=
  fun log => (Ok (http W rq), log ++ [rq]).

(** The second half of [call_api], from the [except] clauses of the
    request on: what becomes of the outcome of [_http.request]. *)
Definition receive (outcome : transport) : result Response :=
  match outcome with
  | Crashed e => Raise e
  | HTTPError e =>
      match message e with
      | Some m => Raise (mk_exn GeneralError [PStr "Unexpected error {0}"; m])
      | None =>
          raise_with AttributeError
            ("'" +:+ class_name e +:+ "' object has no attribute 'message'")
      end
  | SocketError e => raise_with GeneralError ("Socket Error: " +:+ text e)
  | Responded r =>
      match json_loads W (data r) with
      | inl e =>
          raise_with GeneralError
            ("Error parsing server response (" +:+ pretty (status r)
               +:+ ") - " +:+ bytes_str W (data r) +:+ ". Got - " +:+ e)
      | inr decoded =>
          has_error ← py_contains "error" decoded;
          if has_error : bool then
            let exception_class := default Exception (EXCEPTION_CODES !! status r) in
            error ← py_getitem decoded "error";
            msg ← py_getitem error "message";
            raise_with exception_class
              ("Error " +:+ pretty (status r) +:+ " - " +:+ str msg)
          else Response_init decoded r
      end
  end.

Definition call_api (method : string) (uri : list pyval) (params : fields)
    (options : gmap string pyval) : M Response :=
  let '(prefix, options) := pop "upload_prefix" (upload_prefix cfg) options in
  let prefix := py_or prefix (PStr "https://api.cloudinary.com") in
  let '(cloud_name, options) := pop "cloud_name" (cloud_name cfg) options in
  if negb (truthy cloud_name) then raise Exception [PStr "Must supply cloud_name"] else
  let '(api_key, options) := pop "api_key" (api_key cfg) options in
  if negb (truthy api_key) then raise Exception [PStr "Must supply api_key"] else
  let '(api_secret, options) := pop "api_secret" (api_secret cfg) options in
  if negb (truthy cloud_name) then raise Exception [PStr "Must supply api_secret"] else
  api_url ← lift (str_join "/" (PList ([prefix; PStr "v1_1"; cloud_name] ++ uri)));
  let headers :=
    make_headers (str api_key +:+ ":" +:+ str api_secret) (get_user_agent W) in
  let kw := options !! "timeout" in
  outcome ← send (mk_request (upper method) api_url params headers kw);
  lift (receive outcome).

Definition transformation_string (transformation : pyval) : result pyval :=
  match transformation with
  | PStr _ => Ok transformation
  | PDict d => fst <$> generate_transformation_string W d
  | _ =>
      raise_with TypeError
        ("argument after ** must be a mapping, not " +:+ type_name transformation)
  end.

Definition __prepare_streaming_profile_params (options : gmap string pyval)
  : result (dict pyval) :=
  let params := only options ["display_name"] in
  match options !! "representations" with
  | Some reps =>
      elements ← py_iter reps;
      representations ←
        mapM (fun trans =>
                t ← transformation_string trans;
                Ok (PDict [("transformation", t)]))
             elements;
      dumped ← json_dumps W (PList representations);
      Ok (dict_set "representations" (PStr dumped) params)
  | None => Ok params
  end.

(** [if key in options: params[key] = encode(options[key])] *)
Definition set_if_present (key : string) (encode : pyval -> result pyval)
    (options : gmap string pyval) (params : dict pyval) : result (dict pyval) :=
  match options !! key with
  | Some v => x ← encode v; Ok (dict_set key x params)
  | None => Ok params
  end.

(** [[(name, x) for x in values]] *)
Definition repeated (name : string) (values : pyval) : result (list (string * pyval)) :=
  map (pair name) <$> py_iter values.

Definition ping (options : gmap string pyval) : M Response :=
  call_api "get" [PStr "ping"] (FDict []) options.

Definition usage (options : gmap string pyval) : M Response :=
  call_api "get" [PStr "usage"] (FDict []) options.

Definition resource_types (options : gmap string pyval) : M Response :=
  call_api "get" [PStr "resources"] (FDict []) options.

Definition resources (options : gmap string pyval) : M Response :=
  let '(resource_type, options) := pop "resource_type" (PStr "image") options in
  let '(upload_type, options) := pop "type" PNone options in
  let uri := [PStr "resources"; resource_type] in
  let uri := if truthy upload_type then uri ++ [upload_type] else uri in
  let params :=
    only options ["next_cursor"; "max_results"; "prefix"; "tags"; "context";
                  "moderations"; "direction"; "start_at"] in
  call_api "get" uri (FDict params) options.

Definition resources_by_tag (tag : pyval) (options : gmap string pyval) : M Response :=
  let '(resource_type, options) := pop "resource_type" (PStr "image") options in
  let uri := [PStr "resources"; resource_type; PStr "tags"; tag] in
  let params :=
    only options ["next_cursor"; "max_results"; "tags"; "context"; "moderations";
                  "direction"] in
  call_api "get" uri (FDict params) options.

Definition resources_by_moderation (kind status : pyval)
    (options : gmap string pyval) : M Response :=
  let '(resource_type, options) := pop "resource_type" (PStr "image") options in
  let uri := [PStr "resources"; resource_type; PStr "moderations"; kind; status] in
  let params :=
    only options ["next_cursor"; "max_results"; "tags"; "context"; "moderations";
                  "direction"] in
  call_api "get" uri (FDict params) options.

Definition resources_by_ids (public_ids : pyval) (options : gmap string pyval)
  : M Response :=
  let '(resource_type, options) := pop "resource_type" (PStr "image") options in
  let '(upload_type, options) := pop "type" (PStr "upload") options in
  let uri := [PStr "resources"; resource_type; upload_type] in
  params ← lift (repeated "public_ids[]" public_ids);
  let optional := only options ["tags"; "moderations"; "context"] in
  call_api "get" uri (FPairs (params ++ optional)) options.

Definition resource (public_id : pyval) (options : gmap string pyval) : M Response :=
  let '(resource_type, options) := pop "resource_type" (PStr "image") options in
  let '(upload_type, options) := pop "type" (PStr "upload") options in
  let uri := [PStr "resources"; resource_type; upload_type; public_id] in
  let params :=
    only options ["exif"; "faces"; "colors"; "image_metadata"; "pages"; "phash";
                  "coordinates"; "max_results"] in
  call_api "get" uri (FDict params) options.

Definition update (public_id : pyval) (options : gmap string pyval) : M Response :=
  let '(resource_type, options) := pop "resource_type" (PStr "image") options in
  let '(upload_type, options) := pop "type" (PStr "upload") options in
  let uri := [PStr "resources"; resource_type; upload_type; public_id] in
  let params :=
    only options ["moderation_status"; "raw_convert"; "ocr"; "categorization";
                  "detection"; "similarity_search"; "background_removal"] in
  params ← lift (set_if_present "tags"
                   (fun v => a ← build_array W v; PStr <$> str_join "," a)
                   options params);
  params ← lift (set_if_present "face_coordinates" (encode_double_array W)
                   options params);
  params ← lift (set_if_present "custom_coordinates" (encode_double_array W)
                   options params);
  params ← lift (set_if_present "context" (encode_dict W) options params);
  params ← lift (set_if_present "auto_tagging" (fun v => Ok (PStr (str v)))
                   options params);
  call_api "post" uri (FDict params) options.

Definition delete_resources (public_ids : pyval) (options : gmap string pyval)
  : M Response :=
  let '(resource_type, options) := pop "resource_type" (PStr "image") options in
  let '(upload_type, options) := pop "type" (PStr "upload") options in
  let uri := [PStr "resources"; resource_type; upload_type] in
  params ← lift (repeated "public_ids[]" public_ids);
  let optional := only options ["keep_original"; "next_cursor"; "invalidate"] in
  call_api "delete" uri (FPairs (params ++ optional)) options.

Definition delete_resources_by_prefix (prefix : pyval)
    (options : gmap string pyval) : M Response :=
  let '(resource_type, options) := pop "resource_type" (PStr "image") options in
  let '(upload_type, options) := pop "type" (PStr "upload") options in
  let uri := [PStr "resources"; resource_type; upload_type] in
  let params :=
    dict_set "prefix" prefix
      (only options ["keep_original"; "next_cursor"; "invalidate"]) in
  call_api "delete" uri (FDict params) options.

Definition delete_all_resources (options : gmap string pyval) : M Response :=
  let '(resource_type, options) := pop "resource_type" (PStr "image") options in
  let '(upload_type, options) := pop "type" (PStr "upload") options in
  let uri := [PStr "resources"; resource_type; upload_type] in
  let params :=
    dict_set "all" (PBool true)
      (only options ["keep_original"; "next_cursor"; "invalidate"]) in
  call_api "delete" uri (FDict params) options.

Definition delete_resources_by_tag (tag : pyval) (options : gmap string pyval)
  : M Response :=
  let '(resource_type, options) := pop "resource_type" (PStr "image") options in
  let uri := [PStr "resources"; resource_type; PStr "tags"; tag] in
  let params := only options ["keep_original"; "next_cursor"; "invalidate"] in
  call_api "delete" uri (FDict params) options.

Definition delete_derived_resources (derived_resource_ids : pyval)
    (options : gmap string pyval) : M Response :=
  let uri := [PStr "derived_resources"] in
  params ← lift (repeated "derived_resource_ids[]" derived_resource_ids);
  call_api "delete" uri (FPairs params) options.

Definition tags (options : gmap string pyval) : M Response :=
  let '(resource_type, options) := pop "resource_type" (PStr "image") options in
  let uri := [PStr "tags"; resource_type] in
  call_api "get" uri (FDict (only options ["next_cursor"; "max_results"; "prefix"]))
    options.

Definition transformations (options : gmap string pyval) : M Response :=
  let uri := [PStr "transformations"] in
  call_api "get" uri (FDict (only options ["next_cursor"; "max_results"])) options.

Definition transformation (transformation : pyval) (options : gmap string pyval)
  : M Response :=
  t ← lift (transformation_string transformation);
  let uri := [PStr "transformations"; t] in
  call_api "get" uri (FDict (only options ["next_cursor"; "max_results"])) options.

Definition delete_transformation (transformation : pyval)
    (options : gmap string pyval) : M Response :=
  t ← lift (transformation_string transformation);
  let uri := [PStr "transformations"; t] in
  call_api "delete" uri (FDict []) options.

Definition update_transformation (transformation : pyval)
    (options : gmap string pyval) : M Response :=
  t ← lift (transformation_string transformation);
  let uri := [PStr "transformations"; t] in
  let updates := only options ["allowed_for_strict"] in
  updates ← lift (set_if_present "unsafe_update" transformation_string
                    options updates);
  if negb (truthy (PDict updates)) then raise Exception [PStr "No updates given"] else
  call_api "put" uri (FDict updates) options.

Definition create_transformation (name definition : pyval)
    (options : gmap string pyval) : M Response :=
  let uri := [PStr "transformations"; name] in
  t ← lift (transformation_string definition);
  call_api "post" uri (FDict [("transformation", t)]) options.

Definition upload_presets (options : gmap string pyval) : M Response :=
  let uri := [PStr "upload_presets"] in
  call_api "get" uri (FDict (only options ["next_cursor"; "max_results"])) options.

Definition upload_preset (name : pyval) (options : gmap string pyval) : M Response :=
  let uri := [PStr "upload_presets"; name] in
  call_api "get" uri (FDict (only options ["max_results"])) options.

Definition delete_upload_preset (name : pyval) (options : gmap string pyval)
  : M Response :=
  let uri := [PStr "upload_presets"; name] in
  call_api "delete" uri (FDict []) options.

Definition update_upload_preset (name : pyval) (options : gmap string pyval)
  : M Response :=
  let uri := [PStr "upload_presets"; name] in
  params ← lift (build_upload_params W options);
  params ← lift (cleanup_params W params);
  let params := dict_update params (only options ["unsigned"; "disallow_public_id"]) in
  call_api "put" uri (FDict params) options.

Definition create_upload_preset (options : gmap string pyval) : M Response :=
  let uri := [PStr "upload_presets"] in
  params ← lift (build_upload_params W options);
  params ← lift (cleanup_params W params);
  let params :=
    dict_update params (only options ["unsigned"; "disallow_public_id"; "name"]) in
  call_api "post" uri (FDict params) options.

Definition root_folders (options : gmap string pyval) : M Response :=
  call_api "get" [PStr "folders"] (FDict []) options.

Definition subfolders (of_folder_path : pyval) (options : gmap string pyval)
  : M Response :=
  call_api "get" [PStr "folders"; of_folder_path] (FDict []) options.

Definition restore (public_ids : pyval) (options : gmap string pyval) : M Response :=
  let '(resource_type, options) := pop "resource_type" (PStr "image") options in
  let '(upload_type, options) := pop "type" (PStr "upload") options in
  let uri := [PStr "resources"; resource_type; upload_type; PStr "restore"] in
  params ← lift (repeated "public_ids[]" public_ids);
  call_api "post" uri (FPairs params) options.

Definition upload_mappings (options : gmap string pyval) : M Response :=
  let uri := [PStr "upload_mappings"] in
  call_api "get" uri (FDict (only options ["next_cursor"; "max_results"])) options.

Definition upload_mapping (name : pyval) (options : gmap string pyval) : M Response :=
  let uri := [PStr "upload_mappings"] in
  let params := [("folder", name)] in
  call_api "get" uri (FDict params) options.

Definition delete_upload_mapping (name : pyval) (options : gmap string pyval)
  : M Response :=
  let uri := [PStr "upload_mappings"] in
  let params := [("folder", name)] in
  call_api "delete" uri (FDict params) options.

Definition update_upload_mapping (name : pyval) (options : gmap string pyval)
  : M Response :=
  let uri := [PStr "upload_mappings"] in
  let params := [("folder", name)] in
  let params := dict_update params (only options ["template"]) in
  call_api "put" uri (FDict params) options.

Definition create_upload_mapping (name : pyval) (options : gmap string pyval)
  : M Response :=
  let uri := [PStr "upload_mappings"] in
  let params := [("folder", name)] in
  let params := dict_update params (only options ["template"]) in
  call_api "post" uri (FDict params) options.

Definition list_streaming_profiles (options : gmap string pyval) : M Response :=
  let uri := [PStr "streaming_profiles"] in
  call_api "GET" uri (FDict []) options.

Definition get_streaming_profile (name : pyval) (options : gmap string pyval)
  : M Response :=
  let uri := [PStr "streaming_profiles"; name] in
  call_api "GET" uri (FDict []) options.

Definition delete_streaming_profile (name : pyval) (options : gmap string pyval)
  : M Response :=
  let uri := [PStr "streaming_profiles"; name] in
  call_api "DELETE" uri (FDict []) options.

Definition create_streaming_profile (name : pyval) (options : gmap string pyval)
  : M Response :=
  let uri := [PStr "streaming_profiles"] in
  params ← lift (__prepare_streaming_profile_params options);
  let params := dict_set "name" name params in
  call_api "POST" uri (FDict params) options.

Definition update_streaming_profile (name : pyval) (options : gmap string pyval)
  : M Response :=
  let uri := [PStr "streaming_profiles"; name] in
  params ← lift (__prepare_streaming_profile_params options);
  call_api "PUT" uri (FDict params) options.

(** *** The caller-facing surface *)

(** One constructor per public function, with its positional arguments. *)
Inductive operation : Type :=
| Ping | Usage | ResourceTypes | Resources
| ResourcesByTag (tag : pyval)
| ResourcesByModeration (kind status : pyval)
| ResourcesByIds (public_ids : pyval)
| Resource (public_id : pyval)
| Update (public_id : pyval)
| DeleteResources (public_ids : pyval)
| DeleteResourcesByPrefix (prefix : pyval)
| DeleteAllResources
| DeleteResourcesByTag (tag : pyval)
| DeleteDerivedResources (derived_resource_ids : pyval)
| Tags | Transformations
| Transformation (transformation : pyval)
| DeleteTransformation (transformation : pyval)
| UpdateTransformation (transformation : pyval)
| CreateTransformation (name definition : pyval)
| UploadPresets
| UploadPreset (name : pyval)
| DeleteUploadPreset (name : pyval)
| UpdateUploadPreset (name : pyval)
| CreateUploadPreset
| RootFolders
| Subfolders (of_folder_path : pyval)
| Restore (public_ids : pyval)
| UploadMappings
| UploadMapping (name : pyval)
| DeleteUploadMapping (name : pyval)
| UpdateUploadMapping (name : pyval)
| CreateUploadMapping (name : pyval)
| ListStreamingProfiles
| GetStreamingProfile (name : pyval)
| DeleteStreamingProfile (name : pyval)
| CreateStreamingProfile (name : pyval)
| UpdateStreamingProfile (name : pyval).

Definition invoke (op : operation) (options : gmap string pyval) : M Response :=
  match op with
  | Ping => ping options
  | Usage => usage options
  | ResourceTypes => resource_types options
  | Resources => resources options
  | ResourcesByTag tag => resources_by_tag tag options
  | ResourcesByModeration kind status => resources_by_moderation kind status options
  | ResourcesByIds public_ids => resources_by_ids public_ids options
  | Resource public_id => resource public_id options
  | Update public_id => update public_id options
  | DeleteResources public_ids => delete_resources public_ids options
  | DeleteResourcesByPrefix prefix => delete_resources_by_prefix prefix options
  | DeleteAllResources => delete_all_resources options
  | DeleteResourcesByTag tag => delete_resources_by_tag tag options
  | DeleteDerivedResources ids => delete_derived_resources ids options
  | Tags => tags options
  | Transformations => transformations options
  | Transformation t => transformation t options
  | DeleteTransformation t => delete_transformation t options
  | UpdateTransformation t => update_transformation t options
  | CreateTransformation name definition => create_transformation name definition options
  | UploadPresets => upload_presets options
  | UploadPreset name => upload_preset name options
  | DeleteUploadPreset name => delete_upload_preset name options
  | UpdateUploadPreset name => update_upload_preset name options
  | CreateUploadPreset => create_upload_preset options
  | RootFolders => root_folders options
  | Subfolders path => subfolders path options
  | Restore public_ids => restore public_ids options
  | UploadMappings => upload_mappings options
  | UploadMapping name => upload_mapping name options
  | DeleteUploadMapping name => delete_upload_mapping name options
  | UpdateUploadMapping name => update_upload_mapping name options
  | CreateUploadMapping name => create_upload_mapping name options
  | ListStreamingProfiles => list_streaming_profiles options
  | GetStreamingProfile name => get_streaming_profile name options
  | DeleteStreamingProfile name => delete_streaming_profile name options
  | CreateStreamingProfile name => create_streaming_profile name options
  | UpdateStreamingProfile name => update_streaming_profile name options
  end.
End Api.

(** *** Parameters an operation may transmit *)

(** The keys each operation selects from the options with [only], plus
    the keys it sets itself. For the upload presets most of the selection
    is made by [cloudinary.utils.build_upload_params]; [upload_names]
    stands for the keys that helper may produce. *)
Definition allowed_params (upload_names : list string) (op : operation) : list string :=
  match op with
  | Resources =>
      ["next_cursor"; "max_results"; "prefix"; "tags"; "context"; "moderations";
       "direction"; "start_at"]
  | ResourcesByTag _ | ResourcesByModeration _ _ =>
      ["next_cursor"; "max_results"; "tags"; "context"; "moderations"; "direction"]
  | ResourcesByIds _ => ["public_ids[]"; "tags"; "moderations"; "context"]
  | Resource _ =>
      ["exif"; "faces"; "colors"; "image_metadata"; "pages"; "phash"; "coordinates";
       "max_results"]
  | Update _ =>
      ["moderation_status"; "raw_convert"; "ocr"; "categorization"; "detection";
       "similarity_search"; "background_removal"; "tags"; "face_coordinates";
       "custom_coordinates"; "context"; "auto_tagging"]
  | DeleteResources _ => ["public_ids[]"; "keep_original"; "next_cursor"; "invalidate"]
  | DeleteResourcesByPrefix _ => ["keep_original"; "next_cursor"; "invalidate"; "prefix"]
  | DeleteAllResources => ["keep_original"; "next_cursor"; "invalidate"; "all"]
  | DeleteResourcesByTag _ => ["keep_original"; "next_cursor"; "invalidate"]
  | DeleteDerivedResources _ => ["derived_resource_ids[]"]
  | Tags => ["next_cursor"; "max_results"; "prefix"]
  | Transformations | Transformation _ | UploadPresets | UploadMappings =>
      ["next_cursor"; "max_results"]
  | UpdateTransformation _ => ["allowed_for_strict"; "unsafe_update"]
  | CreateTransformation _ _ => ["transformation"]
  | UploadPreset _ => ["max_results"]
  | UpdateUploadPreset _ => upload_names ++ ["unsigned"; "disallow_public_id"]
  | CreateUploadPreset => upload_names ++ ["unsigned"; "disallow_public_id"; "name"]
  | Restore _ => ["public_ids[]"]
  | UploadMapping _ | DeleteUploadMapping _ => ["folder"]
  | UpdateUploadMapping _ | CreateUploadMapping _ => ["folder"; "template"]
  | CreateStreamingProfile _ => ["display_name"; "representations"; "name"]
  | UpdateStreamingProfile _ => ["display_name"; "representations"]
  | Ping | Usage | ResourceTypes | DeleteTransformation _ | DeleteUploadPreset _
  | RootFolders | Subfolders _ | ListStreamingProfiles | GetStreamingProfile _
  | DeleteStreamingProfile _ => []
  end.

(** What the upload-preset operations need of the two [cloudinary.utils]
    helpers for [upload_names] to be their whitelist. *)
Definition upload_params_within (W : World) (upload_names : list string) : Prop :=
  (forall options params,
      build_upload_params W options = Ok params ->
      forall k, k ∈ dict_keys params -> k ∈ upload_names) /\
  (forall params cleaned,
      cleanup_params W params = Ok cleaned ->
      forall k, k ∈ dict_keys cleaned -> k ∈ dict_keys params).

(** ** Concrete worlds *)

(** A world whose service answers every request with [outcome] and whose
    JSON decoder yields [decoded]; the helpers are the simplest ones. *)
Definition world_of (outcome : transport) (decoded : string + pyval) : World :=
  {| http := fun _ => outcome;
     json_loads := fun _ => decoded;
     get_user_agent := "CloudinaryPython/1.8.0";
     repr_str := fun s => "'" +:+ s +:+ "'";
     bytes_str := fun s => "b'" +:+ s +:+ "'";
     parsedate := fun s => PTuple [PStr s];
     update_from_items := fun _ =>
       raise_with TypeError
         "cannot convert dictionary update sequence element #0 to a sequence";
     generate_transformation_string := fun d => Ok (PStr "c_fill", PDict d);
     build_array := fun v => Ok (match v with PList _ => v | _ => PList [v] end);
     encode_double_array := fun v => Ok v;
     encode_dict := fun v => Ok v;
     build_upload_params := fun o => Ok (only o ["tags"; "folder"]);
     cleanup_params := fun p => Ok p;
     json_dumps := fun v => Ok (py_repr (fun s => "'" +:+ s +:+ "'") v) |}.

Definition rate_limit_headers : gmap string string :=
  <["x-featureratelimit-limit" := "500"]>
    (<["x-featureratelimit-reset" := "Wed, 04 Nov 2026 11:00:00 GMT"]>
       (<["x-featureratelimit-remaining" := "499"]> ∅)).

Definition answer (code : Z) (h : gmap string string) : transport :=
  Responded (mk_response code h "{}").

Definition full_config : Config :=
  mk_config PNone (PStr "demo") (PStr "key") (PStr "secret").

Definition error_body (msg : string) : pyval :=
  PDict [("error", PDict [("message", PStr msg)])].

Definition healthy_world : World :=
  world_of (answer 200 rate_limit_headers) (inr (PDict [("status", PStr "ok")])).

Definition not_found_world : World :=
  world_of (answer 404 ∅) (inr (error_body "Resource not found")).

Definition teapot_world : World :=
  world_of (answer 418 ∅) (inr (error_body "short and stout")).

(** A configuration whose [api_secret] was never set. *)
Definition no_secret_config : Config :=
  mk_config PNone (PStr "demo") (PStr "key") PNone.

Definition ping_request : request :=
  mk_request "GET" "https://api.cloudinary.com/v1_1/demo/ping" (FDict [])
    (make_headers "key:secret" "CloudinaryPython/1.8.0") None.

(** A connection failure as urllib3 reports it under Python 3: the
    exception object has no [message] attribute. *)
Definition max_retry_error : caught :=
  mk_caught "MaxRetryError" "Max retries exceeded with url: /v1_1/demo/ping" None.

Definition unreachable_world : World :=
  world_of (HTTPError max_retry_error) (inl EmptyString).

Definition connection_refused : caught :=
  mk_caught "ConnectionRefusedError" "[Errno 111] Connection refused" None.

Definition refused_world : World :=
  world_of (SocketError connection_refused) (inl EmptyString).



(** Every request [m] adds to the log carries only parameters named in
    [allowed]. *)
Definition transmits_within {A : Type} (allowed : list string) (m : M A) : Prop :=
  forall log r log' rq,
    m log = (r, log') ->
    rq ∈ log' ->
    rq ∈ log \/ forall k, k ∈ field_keys (req_fields rq) -> k ∈ allowed.

(** A listing call with one whitelisted option, one control option and one
    option nobody knows, and the request it leads to. *)
Definition listing_options : gmap string pyval :=
  <["max_results" := PInt 10]> (<["resource_type" := PStr "raw"]>
    (<["colour" := PStr "red"]> ∅)).

Definition listing_request : request :=
  mk_request "GET" "https://api.cloudinary.com/v1_1/demo/resources/raw"
    (FDict [("max_results", PInt 10)])
    (make_headers "key:secret" "CloudinaryPython/1.8.0") None.

Definition deletion_request : request :=
  mk_request "DELETE" "https://api.cloudinary.com/v1_1/demo/resources/image/upload"
    (FPairs [("public_ids[]", PStr "cat"); ("public_ids[]", PStr "dog");
             ("public_ids[]", PStr "cat"); ("invalidate", PBool true)])
    (make_headers "key:secret" "CloudinaryPython/1.8.0") None.

Definition named_transformation_request : request :=
  mk_request "GET"
    "https://api.cloudinary.com/v1_1/demo/transformations/c_scale,w_100" (FDict [])
    (make_headers "key:secret" "CloudinaryPython/1.8.0") None.



(** The HTTP method each wrapper names, in upper case. *)
Definition http_method (op : operation) : string :=
  match op with
  | Ping | Usage | ResourceTypes | Resources | ResourcesByTag _
  | ResourcesByModeration _ _ | ResourcesByIds _ | Resource _ | Tags
  | Transformations | Transformation _ | UploadPresets | UploadPreset _
  | RootFolders | Subfolders _ | UploadMappings | UploadMapping _
  | ListStreamingProfiles | GetStreamingProfile _ => "GET"
  | Update _ | CreateTransformation _ _ | CreateUploadPreset | Restore _
  | CreateUploadMapping _ | CreateStreamingProfile _ => "POST"
  | UpdateTransformation _ | UpdateUploadPreset _ | UpdateUploadMapping _
  | UpdateStreamingProfile _ => "PUT"
  | DeleteResources _ | DeleteResourcesByPrefix _ | DeleteAllResources
  | DeleteResourcesByTag _ | DeleteDerivedResources _ | DeleteTransformation _
  | DeleteUploadPreset _ | DeleteUploadMapping _ | DeleteStreamingProfile _ =>
      "DELETE"
  end.

(** Further concrete calls. *)
Definition demo_headers : headers :=
  make_headers "key:secret" "CloudinaryPython/1.8.0".

Definition demo_request (method path : string) (params : fields) : request :=
  mk_request method ("https://api.cloudinary.com/v1_1/demo/" +:+ path) params
    demo_headers None.

(** A configuration without a cloud name. *)
Definition no_account_config : Config :=
  mk_config PNone PNone (PStr "key") (PStr "secret").

Definition timed_ping_request : request :=
  mk_request "GET" "https://api.cloudinary.com/v1_1/demo/ping" (FDict [])
    demo_headers (Some (PInt 30)).

Definition gateway_response : response :=
  mk_response 502 ∅ "<html>Bad Gateway</html>".

Definition gateway_world : World :=
  world_of (Responded gateway_response) (inl "Expecting value: line 1 column 1").

(** The service answers with the JSON document [null]. *)
Definition null_world : World :=
  world_of (answer 200 rate_limit_headers) (inr PNone).

(** The service reports its error as a plain string. *)
Definition plain_error_world : World :=
  world_of (answer 400 ∅) (inr (PDict [("error", PStr "boom")])).

(** Status 200, yet the body carries an error. *)
Definition ok_with_error_world : World :=
  world_of (answer 200 rate_limit_headers) (inr (error_body "quota exceeded")).


Definition strict_update_request : request :=
  demo_request "PUT" "transformations/c_scale,w_100"
    (FDict [("allowed_for_strict", PBool false)]).

Definition spelled_deletion_request : request :=
  demo_request "DELETE" "resources/image/upload"
    (FPairs [("public_ids[]", PStr "c"); ("public_ids[]", PStr "a");
             ("public_ids[]", PStr "t")]).

Definition tagging_options : gmap string pyval :=
  <["tags" := PList [PStr "a"; PStr "b"]]> (<["auto_tagging" := PFloat "0.5"]> ∅).

Definition tagging_request : request :=
  demo_request "POST" "resources/image/upload/pic"
    (FDict [("tags", PStr "a,b"); ("auto_tagging", PStr "0.5")]).

Definition fill_request : request :=
  demo_request "GET" "transformations/c_fill" (FDict []).

Definition preset_options : gmap string pyval :=
  <["unsigned" := PBool true]> (<["tags" := PStr "x"]> ∅).

Definition preset_request : request :=
  demo_request "POST" "upload_presets"
    (FDict [("tags", PStr "x"); ("unsigned", PBool true)]).

(** * Properties *)

(** ** Dictionaries and [only] *)

Section DictFacts.
Context {A : Type}.
Implicit Types (d : dict A) (k x : string) (v : A).

Lemma dict_set_keys k v d x :
  x ∈ dict_keys (dict_set k v d) -> x = k \/ x ∈ dict_keys d.
Proof.
  induction d as [|[k' v'] d IH]; simpl.
  - set_solver.
  - destruct (String.eqb k k'); simpl; set_solver.
Qed.

Lemma dict_set_fresh k v d :
  k ∉ dict_keys d -> dict_set k v d = d ++ [(k, v)].
Proof.
  induction d as [|[k' v'] d IH]; simpl; intros Hk; [done|].
  destruct (String.eqb_spec k k') as [->|_]; [set_solver|].
  rewrite IH; [done|set_solver].
Qed.

Lemma dict_update_keys d other x :
  x ∈ dict_keys (dict_update d other) -> x ∈ dict_keys d \/ x ∈ dict_keys other.
Proof.
  unfold dict_update. revert d.
  induction other as [|[k v] other IH]; simpl; intros d Hx; [by left|].
  apply IH in Hx as [Hx|Hx]; [|set_solver].
  apply dict_set_keys in Hx. set_solver.
Qed.

Lemma dict_update_fresh d other :
  NoDup (dict_keys (d ++ other)) -> dict_update d other = d ++ other.
Proof.
  unfold dict_update, dict_keys. revert d.
  induction other as [|[k v] other IH]; simpl; intros d Hnd.
  - by rewrite app_nil_r.
  - rewrite dict_set_fresh.
    + rewrite IH; rewrite <- app_assoc; done.
    + rewrite fmap_app in Hnd. apply NoDup_app in Hnd as (_ & Hnd & _).
      intros Hk. apply (Hnd k Hk). simpl. set_solver.
Qed.

Lemma dict_get_None k d : dict_get k d = None <-> k ∉ dict_keys d.
Proof.
  induction d as [|[k' v'] d IH]; simpl; [set_solver|].
  destruct (String.eqb_spec k k') as [->|Hne]; [set_solver|].
  rewrite IH. set_solver.
Qed.
End DictFacts.

Lemma only_keys source keys x :
  x ∈ dict_keys (only source keys) -> x ∈ keys /\ is_Some (source !! x).
Proof.
  unfold only.
  assert (forall acc : dict pyval,
    x ∈ dict_keys (fold_left (fun acc key =>
         match source !! key with
         | Some v => dict_set key v acc
         | None => acc
         end) keys acc) ->
    x ∈ dict_keys acc \/ (x ∈ keys /\ is_Some (source !! x))) as Hgen.
  { induction keys as [|key keys IH]; simpl; intros acc Hx; [by left|].
    apply IH in Hx as [Hx|[Hx Hs]]; [|set_solver].
    destruct (source !! key) eqn:Hkey; [|set_solver].
    apply dict_set_keys in Hx as [->|Hx]; [|by left].
    right. split; [set_solver|by rewrite Hkey]. }
  intros Hx. apply Hgen in Hx as [Hx|Hx]; [|done]. simpl in Hx. set_solver.
Qed.

Lemma only_absent source keys :
  (forall k, k ∈ keys -> source !! k = None) -> only source keys = [].
Proof.
  unfold only. induction keys as [|key keys IH]; simpl; intros Hk; [done|].
  rewrite (Hk key); [|set_solver]. apply IH. set_solver.
Qed.

(** ** The effect monad *)

Lemma join_items_strings i (l : list string) : join_items i (map PStr l) = Ok l.
Proof.
  revert i. induction l as [|s l IH]; simpl; intros i; [done|].
  by rewrite IH.
Qed.

Lemma join_items_inv items : forall i l,
  join_items i items = Ok l -> items = map PStr l.
Proof.
  induction items as [|v items IH]; simpl; intros i l H.
  - by inversion H.
  - destruct v; try discriminate.
    destruct (join_items (S i) items) as [l'|] eqn:E; simpl in H; [|discriminate].
    inversion H; subst. simpl. f_equal. by eapply IH.
Qed.

(** ** [call_api] in one equation *)

Section CallApi.
Variable W : World.
Variable cfg : Config.

(** Configuration errors and a URI that does not join leave the log as it
    was; otherwise exactly one request is appended and its outcome is
    handed to [receive]. *)
Lemma call_api_run method uri params options log :
  let prefix :=
    py_or (default (upload_prefix cfg) (options !! "upload_prefix"))
      (PStr "https://api.cloudinary.com") in
  let name := default (cloud_name cfg) (options !! "cloud_name") in
  let key := default (api_key cfg) (options !! "api_key") in
  let secret := default (api_secret cfg) (options !! "api_secret") in
  call_api W cfg method uri params options log =
    if negb (truthy name)
    then (Raise (mk_exn Exception [PStr "Must supply cloud_name"]), log)
    else if negb (truthy key)
    then (Raise (mk_exn Exception [PStr "Must supply api_key"]), log)
    else match str_join "/" (PList ([prefix; PStr "v1_1"; name] ++ uri)) with
         | Raise e => (Raise e, log)
         | Ok url =>
             let rq :=
               mk_request (upper method) url params
                 (make_headers (str W key +:+ ":" +:+ str W secret) (get_user_agent W))
                 (options !! "timeout") in
             (receive W (http W rq), log ++ [rq])
         end.
Proof.
  unfold call_api, pop. cbv zeta.
  rewrite !lookup_delete_ne by done.
  destruct (truthy (default (cloud_name cfg) (options !! "cloud_name"))) eqn:Hn;
    simpl; [|done].
  destruct (truthy (default (api_key cfg) (options !! "api_key"))); simpl; [|done].
  unfold mbind, M_bind, lift, send.
  destruct (str_join _ _); done.
Qed.

(** What is known once a request shows up in the log. *)
Lemma call_api_sent method uri params options rq :
  rq ∈ sent (call_api W cfg method uri params options) ->
  let prefix :=
    py_or (default (upload_prefix cfg) (options !! "upload_prefix"))
      (PStr "https://api.cloudinary.com") in
  let name := default (cloud_name cfg) (options !! "cloud_name") in
  let key := default (api_key cfg) (options !! "api_key") in
  let secret := default (api_secret cfg) (options !! "api_secret") in
  run (call_api W cfg method uri params options) = (receive W (http W rq), [rq]) /\
  rq = mk_request (upper method) (req_url rq) params
         (make_headers (str W key +:+ ":" +:+ str W secret) (get_user_agent W))
         (options !! "timeout") /\
  str_join "/" (PList ([prefix; PStr "v1_1"; name] ++ uri)) = Ok (req_url rq) /\
  truthy name = true /\ truthy key = true.
Proof.
  unfold sent, run. rewrite call_api_run. cbv zeta.
  destruct (truthy (default (cloud_name cfg) _)); simpl; [|set_solver].
  destruct (truthy (default (api_key cfg) _)); simpl; [|set_solver].
  destruct (str_join _ _) as [url|e]; simpl; [|set_solver].
  intros Hrq. apply list_elem_of_singleton in Hrq. subst rq. done.
Qed.

Lemma call_api_sends_at_most_one method uri params options log r log' :
  call_api W cfg method uri params options log = (r, log') ->
  (log' = log /\ exists e, r = Raise e) \/
  (exists rq, log' = log ++ [rq] /\ req_fields rq = params /\
              r = receive W (http W rq)).
Proof.
  rewrite call_api_run. cbv zeta.
  destruct (truthy (default (cloud_name cfg) _)); simpl;
    [|intros [= <- <-]; left; eauto].
  destruct (truthy (default (api_key cfg) _)); simpl;
    [|intros [= <- <-]; left; eauto].
  destruct (str_join _ _) as [url|e]; intros [= <- <-]; [right|left]; eauto.
Qed.

(** The status table, entry by entry. *)
Lemma EXCEPTION_CODES_mapped code cls :
  (code, cls) ∈ [(400, BadRequest); (401, AuthorizationRequired); (403, NotAllowed);
                 (404, NotFound); (409, AlreadyExists); (420, RateLimited);
                 (500, GeneralError)] ->
  EXCEPTION_CODES !! code = Some cls.
Proof.
  rewrite !elem_of_cons, elem_of_nil.
  intros H. repeat destruct H as [[= -> ->]|H]; done.
Qed.

Lemma EXCEPTION_CODES_unmapped code :
  code ∉ [400; 401; 403; 404; 409; 420; 500] -> EXCEPTION_CODES !! code = None.
Proof.
  rewrite !not_elem_of_cons. intros (?&?&?&?&?&?&?&_).
  unfold EXCEPTION_CODES. by rewrite !lookup_insert_ne, lookup_empty.
Qed.

(** The dispatch on a decoded body that is an object with an ["error"]
    entry holding a ["message"]. *)
Lemma receive_error r d e m :
  json_loads W (data r) = inr (PDict d) ->
  dict_get "error" d = Some (PDict e) ->
  dict_get "message" e = Some m ->
  receive W (Responded r) =
    Raise (mk_exn (default Exception (EXCEPTION_CODES !! status r))
             [PStr ("Error " +:+ pretty (status r) +:+ " - " +:+ str W m)]).
Proof.
  intros Hj He Hm. unfold receive. rewrite Hj. simpl. rewrite He. simpl.
  by rewrite Hm.
Qed.
End CallApi.

(** ** Configuration errors *)

Lemma missing_cloud_name_raises W cfg method uri params options :
  options !! "cloud_name" = None ->
  truthy (cloud_name cfg) = false ->
  run (call_api W cfg method uri params options) =
    (Raise (mk_exn Exception [PStr "Must supply cloud_name"]), []).
Proof.
  intros Ho Hc. unfold run. rewrite call_api_run. cbv zeta.
  rewrite Ho. simpl. by rewrite Hc.
Qed.

Lemma missing_api_key_raises W cfg method uri params options :
  truthy (default (cloud_name cfg) (options !! "cloud_name")) = true ->
  options !! "api_key" = None ->
  truthy (api_key cfg) = false ->
  run (call_api W cfg method uri params options) =
    (Raise (mk_exn Exception [PStr "Must supply api_key"]), []).
Proof.
  intros Hn Ho Hc. unfold run. rewrite call_api_run. cbv zeta.
  rewrite Hn, Ho. simpl. by rewrite Hc.
Qed.

(** The third guard tests [cloud_name] a second time, so the secret is
    never looked at: whatever it resolves to, [None] included, goes into
    the credentials of a request that is sent. *)
Lemma api_secret_never_checked W cfg method uri params options url :
  truthy (default (cloud_name cfg) (options !! "cloud_name")) = true ->
  truthy (default (api_key cfg) (options !! "api_key")) = true ->
  str_join "/"
    (PList ([py_or (default (upload_prefix cfg) (options !! "upload_prefix"))
               (PStr "https://api.cloudinary.com");
             PStr "v1_1";
             default (cloud_name cfg) (options !! "cloud_name")] ++ uri)) = Ok url ->
  sent (call_api W cfg method uri params options) =
    [mk_request (upper method) url params
       (make_headers
          (str W (default (api_key cfg) (options !! "api_key")) +:+ ":" +:+
           str W (default (api_secret cfg) (options !! "api_secret")))
          (get_user_agent W))
       (options !! "timeout")].
Proof.
  intros Hn Hk Hu. unfold sent, run. rewrite call_api_run. cbv zeta.
  by rewrite Hn, Hk, Hu.
Qed.

(** C1 (the code departs from the claim): with a cloud name and an API key
    configured but no [api_secret], neither per call nor process-wide,
    [call_api] raises no configuration error; it sends the request with the
    credentials ["key:None"] and returns the service's answer. *)
Theorem call_api_missing_api_secret_sends :
  run (call_api healthy_world no_secret_config "get" [PStr "ping"] (FDict []) ∅) =
    (Ok (mk_Response [(PStr "status", PStr "ok")] 500
           (PTuple [PStr "Wed, 04 Nov 2026 11:00:00 GMT"]) 499),
     [mk_request "GET" "https://api.cloudinary.com/v1_1/demo/ping" (FDict [])
        (make_headers "key:None" "CloudinaryPython/1.8.0") None]).
Proof. vm_compute. reflexivity. Qed.

(** ** Service errors *)

(** C2, as the code has it: when the decoded body is an object whose
    ["error"] entry carries a ["message"] and the status is none of the
    seven mapped codes, [call_api] raises Python's built-in [Exception],
    with the message "Error {status} - {message}". *)
Theorem unmapped_status_raises_builtin_exception
    W cfg method uri params options rq r d e m :
  sent (call_api W cfg method uri params options) = [rq] ->
  http W rq = Responded r ->
  json_loads W (data r) = inr (PDict d) ->
  dict_get "error" d = Some (PDict e) ->
  dict_get "message" e = Some m ->
  status r ∉ [400; 401; 403; 404; 409; 420; 500] ->
  yields (call_api W cfg method uri params options) =
    Raise (mk_exn Exception
             [PStr ("Error " +:+ pretty (status r) +:+ " - " +:+ str W m)]).
Proof.
  intros Hs Hr Hj He Hm Hcode.
  assert (rq ∈ sent (call_api W cfg method uri params options)) as Hin
    by (rewrite Hs; set_solver).
  apply call_api_sent in Hin as (Hrun & _). unfold yields. rewrite Hrun. simpl.
  rewrite Hr, (receive_error _ _ _ _ _ Hj He Hm).
  by rewrite (EXCEPTION_CODES_unmapped _ Hcode).
Qed.

(** C2 as stated fails: at status 418 the exception raised is not the
    module's [Error], nor any subclass of it. *)
Lemma unmapped_status_is_not_module_error :
  exists x,
    yields (call_api teapot_world full_config "get" [PStr "ping"] (FDict []) ∅)
      = Raise x /\
    exn_type x <> Error /\ issubclass (exn_type x) Error = false.
Proof.
  eexists. split; [vm_compute; reflexivity|]. split; [discriminate|reflexivity].
Qed.

(** C3: when the decoded body is an object whose ["error"] entry carries a
    ["message"] and the status is one of the seven mapped codes, the mapped
    subtype is raised with the message "Error {status} - {message}" (the
    message as [str] gives it, that is itself when it is a string); 404
    maps to [NotFound]. *)
Theorem mapped_status_raises_subtype
    W cfg method uri params options rq r d e m cls :
  sent (call_api W cfg method uri params options) = [rq] ->
  http W rq = Responded r ->
  json_loads W (data r) = inr (PDict d) ->
  dict_get "error" d = Some (PDict e) ->
  dict_get "message" e = Some m ->
  (status r, cls) ∈ [(400, BadRequest); (401, AuthorizationRequired);
                     (403, NotAllowed); (404, NotFound); (409, AlreadyExists);
                     (420, RateLimited); (500, GeneralError)] ->
  yields (call_api W cfg method uri params options) =
    Raise (mk_exn cls [PStr ("Error " +:+ pretty (status r) +:+ " - " +:+ str W m)])
  /\ (status r = 404 -> cls = NotFound)
  /\ (forall s, m = PStr s ->
        str W m = s /\
        (status r = 404 ->
         yields (call_api W cfg method uri params options) =
           Raise (mk_exn NotFound [PStr ("Error 404 - " +:+ s)]))).
Proof.
  intros Hs Hr Hj He Hm Hcode.
  assert (rq ∈ sent (call_api W cfg method uri params options)) as Hin
    by (rewrite Hs; set_solver).
  apply call_api_sent in Hin as (Hrun & _).
  pose proof (EXCEPTION_CODES_mapped _ _ Hcode) as Hcls.
  assert (yields (call_api W cfg method uri params options) =
    Raise (mk_exn cls [PStr ("Error " +:+ pretty (status r) +:+ " - " +:+ str W m)]))
    as Hy.
  { unfold yields. rewrite Hrun. simpl.
    by rewrite Hr, (receive_error _ _ _ _ _ Hj He Hm), Hcls. }
  split; [done|]. split.
  - intros H404. rewrite H404 in Hcls. vm_compute in Hcls. congruence.
  - intros s ->. split; [done|]. intros H404. rewrite Hy.
    rewrite H404 in Hcls. vm_compute in Hcls. injection Hcls as <-.
    by rewrite H404.
Qed.

(** An ["error"] entry without a ["message"] ends in the [KeyError] of
    the lookup, whatever the status. *)
Lemma receive_error_without_message W r d e :
  json_loads W (data r) = inr (PDict d) ->
  dict_get "error" d = Some (PDict e) ->
  dict_get "message" e = None ->
  receive W (Responded r) = Raise (mk_exn KeyError [PStr "message"]).
Proof.
  intros Hj He Hm. unfold receive. rewrite Hj. simpl. rewrite He. simpl.
  by rewrite Hm.
Qed.

(** ** Successful responses *)

(** C4: when the decoded body is an object without an ["error"] key, the
    call returns the wrapper holding every item of the body and the three
    header fields, the limit and the remaining count read by [int] and the
    reset time by [parsedate], provided all three headers are there; when
    one of them is missing the call raises instead. *)
Theorem success_wraps_body_and_rate_limits
    W cfg method uri params options rq r d :
  sent (call_api W cfg method uri params options) = [rq] ->
  http W rq = Responded r ->
  json_loads W (data r) = inr (PDict d) ->
  NoDup (dict_keys d) ->
  dict_get "error" d = None ->
  (forall limit reset remaining a b,
      resp_headers r !! "x-featureratelimit-limit" = Some limit ->
      resp_headers r !! "x-featureratelimit-reset" = Some reset ->
      resp_headers r !! "x-featureratelimit-remaining" = Some remaining ->
      py_int limit = Some a ->
      py_int remaining = Some b ->
      yields (call_api W cfg method uri params options) =
        Ok (mk_Response (map (fun kv => (PStr (fst kv), snd kv)) d)
              a (parsedate W reset) b)) /\
  (resp_headers r !! "x-featureratelimit-limit" = None \/
   resp_headers r !! "x-featureratelimit-reset" = None \/
   resp_headers r !! "x-featureratelimit-remaining" = None ->
   exists x,
     yields (call_api W cfg method uri params options) = Raise x /\
     (exn_type x = KeyError \/ exn_type x = ValueError)).
Proof.
  intros Hs Hr Hj Hnd He.
  assert (rq ∈ sent (call_api W cfg method uri params options)) as Hin
    by (rewrite Hs; set_solver).
  apply call_api_sent in Hin as (Hrun & _). unfold yields. rewrite Hrun. simpl.
  rewrite Hr. unfold receive. rewrite Hj. simpl. rewrite He. simpl.
  unfold Response_init, update_items. simpl.
  rewrite (dict_update_fresh [] d) by done. simpl.
  unfold header, int. split.
  - intros limit reset remaining a b Hl Ht Hm Ha Hb.
    rewrite Hl. simpl. rewrite Ha. simpl. rewrite Ht. simpl. rewrite Hm. simpl.
    by rewrite Hb.
  - intros Habsent.
    destruct (resp_headers r !! "x-featureratelimit-limit") as [limit|];
      simpl; [|eauto].
    destruct (py_int limit); simpl; [|eauto].
    destruct (resp_headers r !! "x-featureratelimit-reset") as [reset|];
      simpl; [|eauto].
    destruct (resp_headers r !! "x-featureratelimit-remaining") as [remaining|];
      simpl; [|eauto].
    destruct Habsent as [?|[?|?]]; discriminate.
Qed.

(** What the two parts above leave open: a header that is present but is
    not an integer makes [int] raise. *)
Lemma malformed_rate_limit_header_raises W cfg method uri params options rq r d limit :
  sent (call_api W cfg method uri params options) = [rq] ->
  http W rq = Responded r ->
  json_loads W (data r) = inr (PDict d) ->
  dict_get "error" d = None ->
  resp_headers r !! "x-featureratelimit-limit" = Some limit ->
  py_int limit = None ->
  exists x,
    yields (call_api W cfg method uri params options) = Raise x /\
    exn_type x = ValueError.
Proof.
  intros Hs Hr Hj He Hl Hi.
  assert (rq ∈ sent (call_api W cfg method uri params options)) as Hin
    by (rewrite Hs; set_solver).
  apply call_api_sent in Hin as (Hrun & _). unfold yields. rewrite Hrun. simpl.
  rewrite Hr. unfold receive. rewrite Hj. simpl. rewrite He. simpl.
  unfold Response_init, update_items, header, int. simpl.
  rewrite Hl. simpl. rewrite Hi. simpl. eauto.
Qed.

(** ** Configuration resolution *)



(** ** Transport failures *)

Lemma socket_error_raises_general_error W cfg method uri params options rq e :
  sent (call_api W cfg method uri params options) = [rq] ->
  http W rq = SocketError e ->
  yields (call_api W cfg method uri params options) =
    Raise (mk_exn GeneralError [PStr ("Socket Error: " +:+ text e)]).
Proof.
  intros Hs Hr.
  assert (rq ∈ sent (call_api W cfg method uri params options)) as Hin
    by (rewrite Hs; set_solver).
  apply call_api_sent in Hin as (Hrun & _). unfold yields. rewrite Hrun. simpl.
  by rewrite Hr.
Qed.

Example connection_refused_is_reported :
  run (call_api refused_world full_config "get" [PStr "ping"] (FDict []) ∅) =
    (Raise (mk_exn GeneralError
              [PStr "Socket Error: [Errno 111] Connection refused"]),
     [ping_request]).
Proof. vm_compute. reflexivity. Qed.

(** The [HTTPError] clause reads [e.message] and passes it as a second
    argument next to the unformatted template. *)
Lemma http_error_outcome W cfg method uri params options rq e :
  sent (call_api W cfg method uri params options) = [rq] ->
  http W rq = HTTPError e ->
  yields (call_api W cfg method uri params options) =
    match message e with
    | Some m => Raise (mk_exn GeneralError [PStr "Unexpected error {0}"; m])
    | None =>
        Raise (mk_exn AttributeError
                 [PStr ("'" +:+ class_name e +:+ "' object has no attribute 'message'")])
    end.
Proof.
  intros Hs Hr.
  assert (rq ∈ sent (call_api W cfg method uri params options)) as Hin
    by (rewrite Hs; set_solver).
  apply call_api_sent in Hin as (Hrun & _). unfold yields. rewrite Hrun. simpl.
  rewrite Hr. simpl. by destruct (message e).
Qed.

(** C9 (the code departs from the claim): when the HTTP client raises an
    [HTTPError] whose object has no [message] attribute, as every exception
    under Python 3, [call_api] ends in an [AttributeError] and not in the
    module's generic error. *)
Theorem http_error_without_message_attribute :
  exists x,
    yields (call_api unreachable_world full_config "get" [PStr "ping"] (FDict []) ∅)
      = Raise x /\
    exn_type x = AttributeError /\
    issubclass (exn_type x) Error = false.
Proof. eexists. split; [vm_compute; reflexivity|]. split; reflexivity. Qed.

(** ** What the wrappers transmit *)

Section Wrappers.
Variable W : World.
Variable cfg : Config.

Lemma transmits_call_api allowed method uri params options :
  (forall k, k ∈ field_keys params -> k ∈ allowed) ->
  transmits_within allowed (call_api W cfg method uri params options).
Proof.
  intros Hk log r log' rq Hrun Hrq.
  apply call_api_sends_at_most_one in Hrun as [[-> _]|(rq' & -> & Hf & _)];
    [by left|].
  apply elem_of_app in Hrq as [Hrq|Hrq]; [by left|].
  apply list_elem_of_singleton in Hrq as ->. right. by rewrite Hf.
Qed.

Lemma transmits_lift_bind {A} allowed (r : result A) (f : A -> M Response) :
  (forall a, r = Ok a -> transmits_within allowed (f a)) ->
  transmits_within allowed (lift r ≫= f).
Proof.
  intros Hf log res log' rq. unfold mbind, M_bind, lift.
  destruct r as [a|e]; [|intros [= <- <-]; by left].
  by apply Hf.
Qed.

Lemma transmits_raise allowed c args :
  transmits_within allowed (raise c args : M Response).
Proof. intros log r log' rq [= <- <-]. by left. Qed.

Lemma sent_lift_bind {A} (r : result A) (f : A -> M Response) rq :
  rq ∈ sent (lift r ≫= f) -> exists a, r = Ok a /\ rq ∈ sent (f a).
Proof.
  unfold sent, run, mbind, M_bind, lift. destruct r as [a|e]; simpl; [eauto|].
  set_solver.
Qed.

Lemma set_if_present_keys key encode options params params' x :
  set_if_present key encode options params = Ok params' ->
  x ∈ dict_keys params' -> x = key \/ x ∈ dict_keys params.
Proof.
  unfold set_if_present. destruct (options !! key) as [v|]; [|by intros [= <-]; right].
  destruct (encode v); simpl; [|discriminate].
  intros [= <-]. apply dict_set_keys.
Qed.

Lemma repeated_inv name values pairs :
  repeated name values = Ok pairs ->
  exists elements, py_iter values = Ok elements /\ pairs = map (pair name) elements.
Proof.
  unfold repeated. destruct (py_iter values) as [elements|]; simpl; [|discriminate].
  intros [= <-]. eauto.
Qed.

Lemma repeated_keys name values pairs x :
  repeated name values = Ok pairs -> x ∈ map fst pairs -> x = name.
Proof.
  intros (elements & _ & ->)%repeated_inv.
  rewrite map_map. simpl. intros (? & -> & _)%list_elem_of_fmap. done.
Qed.

Lemma prepare_streaming_profile_params_keys options params x :
  __prepare_streaming_profile_params W options = Ok params ->
  x ∈ dict_keys params -> x ∈ ["display_name"; "representations"].
Proof.
  unfold __prepare_streaming_profile_params.
  destruct (options !! "representations") as [reps|].
  - destruct (py_iter reps); simpl; [|discriminate].
    destruct (mapM _ _); simpl; [|discriminate].
    destruct (json_dumps W _); simpl; [|discriminate].
    intros [= <-] [->|Hx%only_keys]%dict_set_keys; set_solver.
  - intros [= <-] Hx%only_keys. set_solver.
Qed.
End Wrappers.

Ltac keys_step :=
  match goal with
  | H : _ ∈ dict_keys (only _ _) |- _ => apply only_keys in H as [H _]
  | H : _ ∈ map fst (only _ _) |- _ => apply only_keys in H as [H _]
  | H : _ ∈ dict_keys (dict_set _ _ _) |- _ => apply dict_set_keys in H as [->|H]
  | H : _ ∈ dict_keys (dict_update _ _) |- _ => apply dict_update_keys in H as [H|H]
  | E : set_if_present _ _ _ _ = Ok ?p, H : _ ∈ dict_keys ?p |- _ =>
      apply (set_if_present_keys _ _ _ _ _ _ E) in H as [->|H]; clear E
  | E : repeated _ _ = Ok ?p, H : _ ∈ map fst ?p |- _ =>
      apply (repeated_keys _ _ _ _ E) in H as ->; clear E
  | E : __prepare_streaming_profile_params _ _ = Ok ?p, H : _ ∈ dict_keys ?p |- _ =>
      apply (prepare_streaming_profile_params_keys _ _ _ _ E) in H; clear E
  | H : _ ∈ map fst (_ ++ _) |- _ =>
      rewrite map_app in H; apply elem_of_app in H as [H|H]
  end.

Ltac transmit :=
  repeat first
    [ apply transmits_raise
    | apply transmits_lift_bind; intros ? ?
    | match goal with
      | |- transmits_within _ (if ?b then _ else _) => destruct b
      end
    | apply transmits_call_api; simpl field_keys; intros ? ? ].

Ltac unfold_operation :=
  lazymatch goal with
  | |- transmits_within _ (?f _ _ _ _ _) => unfold f
  | |- transmits_within _ (?f _ _ _ _) => unfold f
  | |- transmits_within _ (?f _ _ _) => unfold f
  end.

(** Operation by operation: the parameters handed to [call_api] are
    named in the operation's row of [allowed_params]. *)
Lemma invoke_transmits_within W cfg names op options :
  upload_params_within W names ->
  transmits_within (allowed_params names op) (invoke W cfg op options).
Proof.
  intros [Hbuild Hclean].
  destruct op; unfold invoke, allowed_params.
  all: unfold_operation; unfold pop; cbv zeta; simpl fst; simpl snd.
  all: transmit.
  all: fold (@dict_keys pyval) in *.
  all: repeat keys_step.
  all: try (simpl in *; set_solver).
  all: apply elem_of_app.
  all: match goal with
       | H : _ ∈ [_; _] |- _ => right; set_solver
       | H : _ ∈ [_; _; _] |- _ => right; set_solver
       | _ => left
       end.
  all: eapply Hbuild; [eassumption|]; eapply Hclean; eassumption.
Qed.

(** C6: whatever the operation and the options, a key outside the
    operation's allowed parameters (the keys it selects with [only] or sets
    itself) is in the parameter set of no request that is sent; this holds
    in particular for options the caller supplied, the control options
    among them. *)
Theorem unlisted_option_never_transmitted W cfg names op options k rq :
  upload_params_within W names ->
  k ∉ allowed_params names op ->
  rq ∈ sent (invoke W cfg op options) ->
  k ∉ field_keys (req_fields rq).
Proof.
  intros Hw Hk Hrq Hin.
  destruct (run (invoke W cfg op options)) as [r log'] eqn:Hrun.
  unfold sent in Hrq. rewrite Hrun in Hrq. simpl in Hrq.
  destruct (invoke_transmits_within W cfg names op options Hw [] r log' rq Hrun Hrq)
    as [Hnil|Hall]; [set_solver|].
  by apply Hk, Hall.
Qed.

(** ** Identifier lists *)

Lemma call_api_sent_fields W cfg method uri params options rq :
  rq ∈ sent (call_api W cfg method uri params options) -> req_fields rq = params.
Proof. intros (_ & -> & _)%call_api_sent. done. Qed.

(** C7: for a list of identifiers, the parameters transmitted by
    [resources_by_ids], [delete_resources], [restore] and
    [delete_derived_resources] start with one pair (name[], element) per
    element, in the order of the list, and no other parameter bears that
    name. *)
Theorem identifier_list_one_pair_per_element W cfg op name ids options rq :
  (op, name) ∈ [(ResourcesByIds (PList ids), "public_ids[]");
                (DeleteResources (PList ids), "public_ids[]");
                (Restore (PList ids), "public_ids[]");
                (DeleteDerivedResources (PList ids), "derived_resource_ids[]")] ->
  rq ∈ sent (invoke W cfg op options) ->
  exists optional,
    req_fields rq = FPairs (map (pair name) ids ++ optional) /\
    name ∉ map fst optional.
Proof.
  rewrite !elem_of_cons, elem_of_nil.
  intros [[= -> ->]|[[= -> ->]|[[= -> ->]|[[= -> ->]|[]]]]] Hrq; simpl in Hrq.
  - unfold resources_by_ids, pop in Hrq. cbv zeta in Hrq. simpl in Hrq.
    apply sent_lift_bind in Hrq as (pairs & [= <-] & Hrq).
    apply call_api_sent_fields in Hrq. eexists. split; [exact Hrq|].
    intros Hin%only_keys. set_solver.
  - unfold delete_resources, pop in Hrq. cbv zeta in Hrq. simpl in Hrq.
    apply sent_lift_bind in Hrq as (pairs & [= <-] & Hrq).
    apply call_api_sent_fields in Hrq. eexists. split; [exact Hrq|].
    intros Hin%only_keys. set_solver.
  - unfold restore, pop in Hrq. cbv zeta in Hrq. simpl in Hrq.
    apply sent_lift_bind in Hrq as (pairs & [= <-] & Hrq).
    apply call_api_sent_fields in Hrq. exists []. rewrite app_nil_r.
    split; [exact Hrq|set_solver].
  - unfold delete_derived_resources in Hrq. cbv zeta in Hrq.
    apply sent_lift_bind in Hrq as (pairs & [= <-] & Hrq).
    apply call_api_sent_fields in Hrq. exists []. rewrite app_nil_r.
    split; [exact Hrq|set_solver].
Qed.

(** ** Transformations *)

(** C8: without [allowed_for_strict] and without [unsafe_update],
    [update_transformation] raises and sends nothing; once the
    transformation itself has been turned into a string, what it raises is
    the validation error "No updates given". *)
Theorem update_transformation_without_updates W cfg t options :
  options !! "allowed_for_strict" = None ->
  options !! "unsafe_update" = None ->
  exists x,
    run (update_transformation W cfg t options) = (Raise x, []) /\
    (forall s, transformation_string W t = Ok s ->
               x = mk_exn Exception [PStr "No updates given"]).
Proof.
  intros Ha Hu. unfold update_transformation, run, mbind, M_bind, lift.
  destruct (transformation_string W t) as [s|e].
  - rewrite (only_absent options ["allowed_for_strict"]) by set_solver.
    unfold set_if_present. rewrite Hu. simpl. eauto.
  - eexists. split; [done|]. discriminate.
Qed.

Lemma str_join_list_inv sep elements url :
  str_join sep (PList elements) = Ok url ->
  exists l, elements = map PStr l /\ url = String.concat sep l.
Proof.
  unfold str_join. cbn [py_iter mbind result_bind].
  destruct (join_items 0 elements) as [l|] eqn:Hj; [|discriminate].
  intros [= <-]. exists l. split; [by eapply join_items_inv|done].
Qed.

Lemma transformation_url W cfg method s params options rq :
  rq ∈ sent (call_api W cfg method [PStr "transformations"; PStr s] params options) ->
  exists prefix name,
    req_url rq = String.concat "/" [prefix; "v1_1"; name; "transformations"; s].
Proof.
  intros (_ & _ & Hurl & _)%call_api_sent.
  apply str_join_list_inv in Hurl as (l & Hl & ->).
  destruct l as [|p [|v [|n [|t [|s' [|]]]]]]; try discriminate.
  simpl in Hl. injection Hl as _ <- _ <- <-. eauto.
Qed.

(** C10: [transformation_string] returns a string argument as it is, and
    [transformation], [delete_transformation] and [update_transformation]
    put it unchanged into the URI, as the last path segment after
    "transformations". *)
Theorem raw_transformation_string_verbatim W s :
  transformation_string W (PStr s) = Ok (PStr s) /\
  forall cfg op options rq,
    op ∈ [Transformation (PStr s); DeleteTransformation (PStr s);
          UpdateTransformation (PStr s)] ->
    rq ∈ sent (invoke W cfg op options) ->
    exists prefix name,
      req_url rq = String.concat "/" [prefix; "v1_1"; name; "transformations"; s].
Proof.
  split; [done|]. intros cfg op options rq.
  rewrite !elem_of_cons, elem_of_nil.
  intros [->|[->|[->|[]]]] Hrq; simpl in Hrq.
  - unfold transformation in Hrq.
    apply sent_lift_bind in Hrq as (t & [= <-] & Hrq).
    by eapply transformation_url.
  - unfold delete_transformation in Hrq.
    apply sent_lift_bind in Hrq as (t & [= <-] & Hrq).
    by eapply transformation_url.
  - unfold update_transformation in Hrq.
    apply sent_lift_bind in Hrq as (t & [= <-] & Hrq).
    apply sent_lift_bind in Hrq as (updates & _ & Hrq).
    destruct (negb (truthy (PDict updates))); [|by eapply transformation_url].
    unfold sent, run, raise, lift in Hrq. simpl in Hrq. set_solver.
Qed.

(** ** The theorems at concrete calls *)

(** The helpers of [world_of] select ["tags"] and ["folder"] only. *)
Lemma world_of_upload_params_within outcome decoded :
  upload_params_within (world_of outcome decoded) ["tags"; "folder"].
Proof.
  split; simpl.
  - intros options params [= <-] k Hk. by apply only_keys in Hk as [Hk _].
  - by intros params cleaned [= <-].
Qed.

(** Status 418 with an error body. *)
Lemma unmapped_status_raises_builtin_exception_witness :
  yields (call_api teapot_world full_config "get" [PStr "ping"] (FDict []) ∅) =
    Raise (mk_exn Exception [PStr "Error 418 - short and stout"]).
Proof.
  apply (unmapped_status_raises_builtin_exception teapot_world full_config
           "get" [PStr "ping"] (FDict []) ∅ ping_request (mk_response 418 ∅ "{}")
           [("error", PDict [("message", PStr "short and stout")])]
           [("message", PStr "short and stout")] (PStr "short and stout"));
    try reflexivity.
  simpl. rewrite !not_elem_of_cons. repeat split; try lia. apply not_elem_of_nil.
Defined.

(** Status 404 with an error body. *)
Lemma mapped_status_raises_subtype_witness :
  yields (call_api not_found_world full_config "get" [PStr "ping"] (FDict []) ∅) =
    Raise (mk_exn NotFound [PStr "Error 404 - Resource not found"]).
Proof.
  apply (mapped_status_raises_subtype not_found_world full_config
           "get" [PStr "ping"] (FDict []) ∅ ping_request (mk_response 404 ∅ "{}")
           [("error", PDict [("message", PStr "Resource not found")])]
           [("message", PStr "Resource not found")] (PStr "Resource not found")
           NotFound);
    try reflexivity.
  simpl. do 3 apply list_elem_of_further. apply list_elem_of_here.
Defined.

(** Status 200, a body without ["error"] and the three headers. *)
Lemma success_wraps_body_and_rate_limits_witness :
  yields (call_api healthy_world full_config "get" [PStr "ping"] (FDict []) ∅) =
    Ok (mk_Response [(PStr "status", PStr "ok")] 500
          (PTuple [PStr "Wed, 04 Nov 2026 11:00:00 GMT"]) 499).
Proof.
  refine (proj1 (success_wraps_body_and_rate_limits healthy_world full_config
                   "get" [PStr "ping"] (FDict []) ∅ ping_request
                   (mk_response 200 rate_limit_headers "{}")
                   [("status", PStr "ok")] _ _ _ _ _)
            "500" "Wed, 04 Nov 2026 11:00:00 GMT" "499" 500 499 _ _ _ _ _);
    try reflexivity.
  apply NoDup_cons. split; [apply not_elem_of_nil|apply NoDup_nil_2].
Defined.


(** [resources(max_results=10, resource_type="raw", colour="red")]: only
    [max_results] is transmitted. *)
Lemma unlisted_option_never_transmitted_witness :
  ("colour" ∉ field_keys (req_fields listing_request)) /\
  ("resource_type" ∉ field_keys (req_fields listing_request)).
Proof.
  split.
  - apply (unlisted_option_never_transmitted healthy_world full_config
             ["tags"; "folder"] Resources listing_options "colour" listing_request).
    + apply world_of_upload_params_within.
    + simpl. rewrite !not_elem_of_cons.
      repeat split; try discriminate. apply not_elem_of_nil.
    + vm_compute. apply list_elem_of_here.
  - apply (unlisted_option_never_transmitted healthy_world full_config
             ["tags"; "folder"] Resources listing_options "resource_type"
             listing_request).
    + apply world_of_upload_params_within.
    + simpl. rewrite !not_elem_of_cons.
      repeat split; try discriminate. apply not_elem_of_nil.
    + vm_compute. apply list_elem_of_here.
Defined.

(** [delete_resources(["cat", "dog", "cat"], invalidate=True, colour="red")] *)
Lemma identifier_list_one_pair_per_element_witness :
  exists optional,
    req_fields deletion_request =
      FPairs (map (pair "public_ids[]") [PStr "cat"; PStr "dog"; PStr "cat"]
                ++ optional) /\
    "public_ids[]" ∉ map fst optional.
Proof.
  apply (identifier_list_one_pair_per_element healthy_world full_config
           (DeleteResources (PList [PStr "cat"; PStr "dog"; PStr "cat"]))
           "public_ids[]" [PStr "cat"; PStr "dog"; PStr "cat"]
           (<["invalidate" := PBool true]> (<["colour" := PStr "red"]> ∅))
           deletion_request).
  - apply list_elem_of_further. apply list_elem_of_here.
  - vm_compute. apply list_elem_of_here.
Defined.

(** [update_transformation("c_scale,w_100", colour="red")] *)
Lemma update_transformation_without_updates_witness :
  exists x,
    run (update_transformation healthy_world full_config (PStr "c_scale,w_100")
           (<["colour" := PStr "red"]> ∅)) = (Raise x, []) /\
    (forall s, transformation_string healthy_world (PStr "c_scale,w_100") = Ok s ->
               x = mk_exn Exception [PStr "No updates given"]).
Proof.
  apply (update_transformation_without_updates healthy_world full_config
           (PStr "c_scale,w_100") (<["colour" := PStr "red"]> ∅));
    reflexivity.
Defined.

(** [transformation("c_scale,w_100")] *)
Lemma raw_transformation_string_verbatim_witness :
  exists prefix name,
    req_url named_transformation_request =
      String.concat "/" [prefix; "v1_1"; name; "transformations"; "c_scale,w_100"].
Proof.
  apply (proj2 (raw_transformation_string_verbatim healthy_world "c_scale,w_100")
           full_config (Transformation (PStr "c_scale,w_100")) ∅
           named_transformation_request).
  - apply list_elem_of_here.
  - vm_compute. apply list_elem_of_here.
Defined.

(** * Beyond the claims *)

(** ** Every operation ends in one [call_api] *)

Lemma run_lift_bind {A} (r : result A) (f : A -> M Response) :
  run (lift r ≫= f) =
    match r with
    | Ok a => run (f a)
    | Raise e => (Raise e, [])
    end.
Proof. unfold run, mbind, M_bind, lift. by destruct r. Qed.

(** One step of a wrapper: a pure computation that may raise, or the
    validation of [update_transformation]. *)
Ltac run_step :=
  match goal with
  | |- context [run (lift ?r ≫= _)] =>
      rewrite (run_lift_bind r); destruct r eqn:?; [|left; eauto]
  | |- context [run (if ?b then _ else _)] =>
      destruct b eqn:?; [left; unfold run, raise, lift; eauto|]
  end.

Ltac unfold_wrappers :=
  unfold ping, usage, resource_types, resources, resources_by_tag,
    resources_by_moderation, resources_by_ids, resource, update, delete_resources,
    delete_resources_by_prefix, delete_all_resources, delete_resources_by_tag,
    delete_derived_resources, tags, transformations, transformation,
    delete_transformation, update_transformation, create_transformation,
    upload_presets, upload_preset, delete_upload_preset, update_upload_preset,
    create_upload_preset, root_folders, subfolders, restore, upload_mappings,
    upload_mapping, delete_upload_mapping, update_upload_mapping,
    create_upload_mapping, list_streaming_profiles, get_streaming_profile,
    delete_streaming_profile, create_streaming_profile, update_streaming_profile.

Ltac unfold_wrappers_in H :=
  unfold ping, usage, resource_types, resources, resources_by_tag,
    resources_by_moderation, resources_by_ids, resource, update, delete_resources,
    delete_resources_by_prefix, delete_all_resources, delete_resources_by_tag,
    delete_derived_resources, tags, transformations, transformation,
    delete_transformation, update_transformation, create_transformation,
    upload_presets, upload_preset, delete_upload_preset, update_upload_preset,
    create_upload_preset, root_folders, subfolders, restore, upload_mappings,
    upload_mapping, delete_upload_mapping, update_upload_mapping,
    create_upload_mapping, list_streaming_profiles, get_streaming_profile,
    delete_streaming_profile, create_streaming_profile, update_streaming_profile,
    pop in H;
  cbv zeta in H; simpl fst in H; simpl snd in H.

(** A wrapper either raises on its own, before any request, or is one
    call of [call_api] with the options it was given, [resource_type] and
    [type] apart. *)
Lemma invoke_cases W cfg op options :
  (exists e, run (invoke W cfg op options) = (Raise e, [])) \/
  (exists method uri params options',
      run (invoke W cfg op options) = run (call_api W cfg method uri params options') /\
      forall k, k <> "resource_type" -> k <> "type" -> options' !! k = options !! k).
Proof.
  destruct op; unfold invoke.
  all: unfold_wrappers.
  all: unfold pop; cbv zeta; simpl fst; simpl snd.
  all: repeat run_step.
  all: right; do 4 eexists; split; [reflexivity|].
  all: intros k Hr Ht; by rewrite ?lookup_delete_ne.
Qed.

Lemma invoke_reaches_call_api W cfg op options rq :
  rq ∈ sent (invoke W cfg op options) ->
  exists method uri params options',
    run (invoke W cfg op options) = run (call_api W cfg method uri params options') /\
    rq ∈ sent (call_api W cfg method uri params options') /\
    forall k, k <> "resource_type" -> k <> "type" -> options' !! k = options !! k.
Proof.
  intros Hrq.
  destruct (invoke_cases W cfg op options)
    as [[e He]|(method & uri & params & options' & Hrun & Hopt)].
  - unfold sent in Hrq. rewrite He in Hrq. set_solver.
  - exists method, uri, params, options'. split; [done|]. split; [|done].
    unfold sent in *. by rewrite <- Hrun.
Qed.

(** X3: no operation sends more than one request (there is no retry), and
    none returns a response without having sent exactly one. *)
Theorem one_request_per_call W cfg op options :
  (length (sent (invoke W cfg op options)) <= 1)%nat /\
  (forall v, yields (invoke W cfg op options) = Ok v ->
             length (sent (invoke W cfg op options)) = 1%nat).
Proof.
  unfold sent, yields.
  destruct (invoke_cases W cfg op options)
    as [[e ->]|(method & uri & params & options' & -> & _)]; simpl.
  - split; [lia|discriminate].
  - destruct (run (call_api W cfg method uri params options')) as [r log'] eqn:Hrun.
    apply call_api_sends_at_most_one in Hrun as [[-> [e ->]]|(rq & -> & _)]; simpl.
    + split; [lia|discriminate].
    + split; [lia|done].
Qed.

(** X4: when the cloud name or the API key resolves to nothing (absent, or
    overridden per call by an empty value), every operation raises and no
    request is sent. *)
Theorem no_request_without_cloud_name_or_key W cfg op options :
  truthy (default (cloud_name cfg) (options !! "cloud_name")) = false \/
  truthy (default (api_key cfg) (options !! "api_key")) = false ->
  exists x, run (invoke W cfg op options) = (Raise x, []).
Proof.
  intros Hmissing.
  destruct (invoke_cases W cfg op options)
    as [He|(method & uri & params & options' & -> & Hopt)]; [done|].
  unfold run. rewrite call_api_run. cbv zeta.
  rewrite (Hopt "cloud_name"), (Hopt "api_key") by done.
  destruct Hmissing as [H|H]; rewrite H; simpl; [eauto|].
  destruct (truthy (default (cloud_name cfg) _)); simpl; eauto.
Qed.

(** X5: every operation hands the [timeout] option to the HTTP client
    unchanged (none when absent) and authenticates with the resolved API
    key and secret, next to the user agent. *)
Theorem timeout_and_credentials_forwarded W cfg op options rq :
  rq ∈ sent (invoke W cfg op options) ->
  req_timeout rq = options !! "timeout" /\
  req_headers rq =
    make_headers
      (str W (default (api_key cfg) (options !! "api_key")) +:+ ":" +:+
       str W (default (api_secret cfg) (options !! "api_secret")))
      (get_user_agent W).
Proof.
  intros (method & uri & params & options' & _ & Hrq & Hopt)%invoke_reaches_call_api.
  apply call_api_sent in Hrq as (_ & -> & _). simpl.
  by rewrite (Hopt "timeout"), (Hopt "api_key"), (Hopt "api_secret").
Qed.

(** X6: every request of every operation goes to a URL that starts with
    the resolved upload prefix, "v1_1" and the resolved, non-empty cloud
    name, both of which have to be strings. *)
Theorem url_under_account_base W cfg op options rq :
  rq ∈ sent (invoke W cfg op options) ->
  exists prefix name segments,
    py_or (default (upload_prefix cfg) (options !! "upload_prefix"))
      (PStr "https://api.cloudinary.com") = PStr prefix /\
    default (cloud_name cfg) (options !! "cloud_name") = PStr name /\
    name <> EmptyString /\
    req_url rq = String.concat "/" (prefix :: "v1_1" :: name :: segments).
Proof.
  intros (method & uri & params & options' & _ & Hrq & Hopt)%invoke_reaches_call_api.
  apply call_api_sent in Hrq as (_ & _ & Hurl & Hname & _).
  rewrite (Hopt "upload_prefix"), (Hopt "cloud_name") in Hurl by done.
  rewrite (Hopt "cloud_name") in Hname by done.
  apply str_join_list_inv in Hurl as (l & Hl & ->).
  destruct l as [|p [|v [|n rest]]]; try discriminate.
  simpl in Hl. injection Hl as Hp <- Hn _.
  exists p, n, rest. split; [done|]. split; [done|]. split; [|done].
  intros ->. rewrite Hn in Hname. discriminate.
Qed.

(** The wrappers return what [call_api] returns. *)
Lemma invoke_yields_receive W cfg op options rq :
  rq ∈ sent (invoke W cfg op options) ->
  yields (invoke W cfg op options) = receive W (http W rq).
Proof.
  intros (method & uri & params & options' & Hrun & Hrq & _)%invoke_reaches_call_api.
  apply call_api_sent in Hrq as (Hrun' & _).
  unfold yields. by rewrite Hrun, Hrun'.
Qed.

(** ** What [only] selects *)

Section DictLookup.
Context {A : Type}.
Implicit Types (d : dict A) (k : string) (v : A).

Lemma dict_get_set_eq k v d : dict_get k (dict_set k v d) = Some v.
Proof.
  induction d as [|[k' v'] d IH]; simpl.
  - by rewrite String.eqb_refl.
  - destruct (String.eqb_spec k k') as [->|Hne]; simpl.
    + by rewrite String.eqb_refl.
    + by destruct (String.eqb_spec k k').
Qed.

Lemma dict_get_set_ne k k' v d : k <> k' -> dict_get k' (dict_set k v d) = dict_get k' d.
Proof.
  intros Hne. induction d as [|[k0 v0] d IH]; simpl.
  - by destruct (String.eqb_spec k' k) as [->|_].
  - destruct (String.eqb_spec k k0) as [->|Hk]; simpl.
    + by destruct (String.eqb_spec k' k0) as [->|_].
    + by rewrite IH.
Qed.

Lemma dict_get_update_other k d other :
  k ∉ dict_keys other -> dict_get k (dict_update d other) = dict_get k d.
Proof.
  unfold dict_update. revert d.
  induction other as [|[k0 v0] other IH]; simpl; intros d Hk; [done|].
  rewrite IH by set_solver. apply dict_get_set_ne. set_solver.
Qed.
End DictLookup.

Lemma only_fold_lookup (source : gmap string pyval) keys k : forall acc : dict pyval,
  dict_get k
    (fold_left (fun acc key =>
       match source !! key with
       | Some v => dict_set key v acc
       | None => acc
       end) keys acc) =
  match (if bool_decide (k ∈ keys) then source !! k else None) with
  | Some v => Some v
  | None => dict_get k acc
  end.
Proof.
  induction keys as [|key keys IH]; simpl; intros acc.
  - done.
  - rewrite IH. destruct (decide (k ∈ keys)) as [Hin|Hnin].
    + rewrite !bool_decide_eq_true_2 by set_solver.
      destruct (source !! k) eqn:Hk; [done|].
      destruct (decide (key = k)) as [->|Hne]; [by rewrite Hk|].
      destruct (source !! key); [|done]. by apply dict_get_set_ne.
    + rewrite (bool_decide_eq_false_2 (k ∈ keys)) by done.
      destruct (decide (key = k)) as [->|Hne].
      * rewrite bool_decide_eq_true_2 by set_solver.
        destruct (source !! k); [|done]. apply dict_get_set_eq.
      * rewrite bool_decide_eq_false_2 by set_solver.
        destruct (source !! key); [|done]. by apply dict_get_set_ne.
Qed.

Lemma only_get (source : gmap string pyval) keys k :
  dict_get k (only source keys) = if bool_decide (k ∈ keys) then source !! k else None.
Proof.
  unfold only. rewrite only_fold_lookup. simpl.
  by destruct (if bool_decide (k ∈ keys) then source !! k else None).
Qed.

(** X1: looking a key up in [only source keys] gives the value [source]
    has for it when the key is one of [keys], and nothing otherwise. *)
Theorem only_lookup (source : gmap string pyval) keys k :
  dict_get k (only source keys) = if bool_decide (k ∈ keys) then source !! k else None.
Proof. apply only_get. Qed.

Lemma only_fold_keys (source : gmap string pyval) keys : forall acc : dict pyval,
  NoDup keys ->
  (forall k, k ∈ keys -> k ∉ dict_keys acc) ->
  dict_keys
    (fold_left (fun acc key =>
       match source !! key with
       | Some v => dict_set key v acc
       | None => acc
       end) keys acc) =
  dict_keys acc ++ filter (fun k => is_Some (source !! k)) keys.
Proof.
  induction keys as [|key keys IH]; simpl; intros acc Hnd Hfresh.
  - by rewrite app_nil_r.
  - apply NoDup_cons in Hnd as [Hkey Hnd].
    destruct (source !! key) as [v|] eqn:Hv.
    + rewrite filter_cons_True by (by rewrite Hv).
      rewrite IH; [|done|].
      * rewrite dict_set_fresh by set_solver.
        unfold dict_keys. rewrite map_app. simpl. by rewrite <- app_assoc.
      * intros k Hk [->|Hin]%dict_set_keys; [done|]. apply (Hfresh k); set_solver.
    + rewrite filter_cons_False by (rewrite Hv; by intros [? ?]).
      apply IH; [done|]. intros k Hk. apply Hfresh. set_solver.
Qed.

Lemma only_dict_keys (source : gmap string pyval) keys :
  NoDup keys ->
  dict_keys (only source keys) = filter (fun k => is_Some (source !! k)) keys.
Proof.
  intros Hnd. unfold only. rewrite only_fold_keys; [done|done|].
  intros k _. simpl. set_solver.
Qed.

(** X2: the items of [only source keys] come in the order of [keys], not
    in the caller's: its keys are those of [keys] that [source] has, in
    place, each once. *)
Theorem only_keeps_whitelist_order (source : gmap string pyval) keys :
  NoDup keys ->
  dict_keys (only source keys) = filter (fun k => is_Some (source !! k)) keys.
Proof. apply only_dict_keys. Qed.

(** ** The status table *)

(** X7: every class in [EXCEPTION_CODES] is a direct subclass of [Error],
    and no class stands for two status codes. *)
Theorem mapped_classes_derive_from_Error code cls :
  EXCEPTION_CODES !! code = Some cls ->
  base cls = Some Error /\ issubclass cls Error = true /\
  forall code', EXCEPTION_CODES !! code' = Some cls -> code' = code.
Proof.
  assert (forall c k, EXCEPTION_CODES !! c = Some k ->
            (c, k) ∈ [(400, BadRequest); (401, AuthorizationRequired);
                      (403, NotAllowed); (404, NotFound); (409, AlreadyExists);
                      (420, RateLimited); (500, GeneralError)]) as Hin.
  { intros c k. unfold EXCEPTION_CODES.
    rewrite !lookup_insert, lookup_empty.
    repeat case_decide; intros [= <-]; subst; set_solver. }
  intros H. pose proof (Hin _ _ H) as Hc.
  rewrite !elem_of_cons, elem_of_nil in Hc.
  repeat destruct Hc as [[= -> ->]|Hc]; try done.
  all: split; [done|]; split; [done|].
  all: intros code' H'; apply Hin in H'; rewrite !elem_of_cons, elem_of_nil in H'.
  all: repeat destruct H' as [[= ->]|H']; try done.
Qed.

(** ** Outcomes, for every operation *)

(** X8: in every operation a socket error of the HTTP client becomes a
    [GeneralError] saying "Socket Error: " and the text of the cause. *)
Theorem socket_error_in_any_operation W cfg op options rq e :
  rq ∈ sent (invoke W cfg op options) ->
  http W rq = SocketError e ->
  yields (invoke W cfg op options) =
    Raise (mk_exn GeneralError [PStr ("Socket Error: " +:+ text e)]).
Proof.
  intros Hrq Hr. rewrite (invoke_yields_receive _ _ _ _ _ Hrq), Hr. done.
Qed.

(** X9: in every operation a body that does not decode as JSON becomes a
    [GeneralError] whose message quotes the status, the raw body and the
    decoder's complaint. *)
Theorem unparsable_body_raises_general_error W cfg op options rq r e :
  rq ∈ sent (invoke W cfg op options) ->
  http W rq = Responded r ->
  json_loads W (data r) = inl e ->
  yields (invoke W cfg op options) =
    Raise (mk_exn GeneralError
             [PStr ("Error parsing server response (" +:+ pretty (status r)
                      +:+ ") - " +:+ bytes_str W (data r) +:+ ". Got - " +:+ e)]).
Proof.
  intros Hrq Hr Hj. rewrite (invoke_yields_receive _ _ _ _ _ Hrq), Hr.
  unfold receive. by rewrite Hj.
Qed.

(** X10: a body that decodes to a JSON scalar (null, a boolean, a number)
    makes the ["error" in result] test raise a [TypeError], which is not
    one of the module's errors. *)
Theorem scalar_body_raises_type_error W cfg op options rq r v :
  rq ∈ sent (invoke W cfg op options) ->
  http W rq = Responded r ->
  json_loads W (data r) = inr v ->
  type_name v ∈ ["NoneType"; "bool"; "int"; "float"] ->
  exists x,
    yields (invoke W cfg op options) = Raise x /\
    exn_type x = TypeError /\
    issubclass (exn_type x) Error = false.
Proof.
  intros Hrq Hr Hj Hv. rewrite (invoke_yields_receive _ _ _ _ _ Hrq), Hr.
  unfold receive. rewrite Hj.
  destruct v; simpl in Hv; try (by eexists); set_solver.
Qed.

(** X11: when the ["error"] entry is not an object, or is an object
    without ["message"], the lookup itself fails: a [TypeError] or a
    [KeyError] reaches the caller instead of an error of the module. *)
Theorem malformed_error_payload_escapes_taxonomy W cfg op options rq r d err :
  rq ∈ sent (invoke W cfg op options) ->
  http W rq = Responded r ->
  json_loads W (data r) = inr (PDict d) ->
  dict_get "error" d = Some err ->
  (forall e, err = PDict e -> dict_get "message" e = None) ->
  exists x,
    yields (invoke W cfg op options) = Raise x /\
    (exn_type x = KeyError \/ exn_type x = TypeError) /\
    issubclass (exn_type x) Error = false.
Proof.
  intros Hrq Hr Hj He Hm. rewrite (invoke_yields_receive _ _ _ _ _ Hrq), Hr.
  unfold receive. rewrite Hj. simpl. rewrite He. simpl.
  destruct err; simpl; try (eexists; split; [reflexivity|]; split; [by right|done]).
  rewrite (Hm d0 eq_refl). simpl. eexists. split; [reflexivity|]. split; [by left|done].
Qed.

(** X12: the ["error"] key decides, not the status: an object body with
    the key never yields a response, and one without it never yields a
    service error; the only failures left are those of reading the
    rate-limit headers. *)
Theorem error_key_decides_not_status W cfg op options rq r d :
  rq ∈ sent (invoke W cfg op options) ->
  http W rq = Responded r ->
  json_loads W (data r) = inr (PDict d) ->
  (is_Some (dict_get "error" d) ->
   exists x, yields (invoke W cfg op options) = Raise x) /\
  (dict_get "error" d = None ->
   forall x, yields (invoke W cfg op options) = Raise x ->
             (exn_type x = KeyError \/ exn_type x = ValueError) /\
             issubclass (exn_type x) Error = false).
Proof.
  intros Hrq Hr Hj. rewrite (invoke_yields_receive _ _ _ _ _ Hrq), Hr.
  unfold receive. rewrite Hj. simpl. split.
  - intros [err He]. rewrite He. simpl.
    destruct (py_getitem err "message"); simpl; eauto.
  - intros ->. simpl. unfold Response_init, update_items, header, int. simpl.
    intros x.
    destruct (resp_headers r !! "x-featureratelimit-limit") as [limit|]; simpl;
      [|intros [= <-]; auto].
    destruct (py_int limit); simpl; [|intros [= <-]; auto].
    destruct (resp_headers r !! "x-featureratelimit-reset"); simpl;
      [|intros [= <-]; auto].
    destruct (resp_headers r !! "x-featureratelimit-remaining") as [rem|]; simpl;
      [|intros [= <-]; auto].
    destruct (py_int rem); simpl; [discriminate|intros [= <-]; auto].
Qed.

(** ** Paths *)

Lemma join_items_raises_type_error items : forall i e,
  join_items i items = Raise e -> exn_type e = TypeError.
Proof.
  induction items as [|v items IH]; simpl; intros i e H; [discriminate|].
  destruct v; try (by injection H as <-).
  destruct (join_items (S i) items) eqn:E; simpl in H; [discriminate|].
  injection H as <-. by eapply IH.
Qed.

(** X13: a path segment that is not a string (an integer public id, an
    explicit [None]) makes [call_api] raise before anything is sent. *)
Theorem non_string_segment_sends_nothing W cfg method uri params options v :
  v ∈ uri ->
  (forall s, v <> PStr s) ->
  exists x,
    run (call_api W cfg method uri params options) = (Raise x, []) /\
    (exn_type x = TypeError \/ exn_type x = Exception).
Proof.
  intros Hv Hns. unfold run. rewrite call_api_run. cbv zeta.
  destruct (truthy (default (cloud_name cfg) _)); simpl; [|eauto].
  destruct (truthy (default (api_key cfg) _)); simpl; [|eauto].
  destruct (str_join _ _) as [url|e] eqn:Hj.
  - apply str_join_list_inv in Hj as (l & Hl & _).
    assert (v ∈ map PStr l) as Hin by (rewrite <- Hl; set_solver).
    apply list_elem_of_fmap in Hin as (s & -> & _). by destruct (Hns s).
  - eexists. split; [done|]. left.
    unfold str_join in Hj. cbn [py_iter mbind result_bind] in Hj.
    destruct (join_items 0 _) eqn:E; [discriminate|].
    injection Hj as <-. by eapply join_items_raises_type_error.
Qed.

Lemma call_api_url W cfg method uri params options rq :
  rq ∈ sent (call_api W cfg method uri params options) ->
  exists prefix name segments,
    uri = map PStr segments /\
    req_url rq = String.concat "/" (prefix :: "v1_1" :: name :: segments).
Proof.
  intros (_ & _ & Hurl & _)%call_api_sent.
  apply str_join_list_inv in Hurl as (l & Hl & ->).
  destruct l as [|p [|v [|n rest]]]; try discriminate.
  simpl in Hl. injection Hl as _ <- _ Hrest. eauto.
Qed.

Ltac reach_call_api H :=
  repeat (apply sent_lift_bind in H as (? & ? & H)).

(** X14: the operations on stored resources address
    resources/<resource_type>/<type>, where the two segments are the
    options of that name and default to "image" and "upload". *)
Theorem delivery_type_defaults W cfg op tail ids id pfx options rq :
  (op, tail) ∈ [(ResourcesByIds ids, []); (Resource (PStr id), [id]);
                (Update (PStr id), [id]); (DeleteResources ids, []);
                (DeleteResourcesByPrefix pfx, []); (DeleteAllResources, []);
                (Restore ids, ["restore"])] ->
  rq ∈ sent (invoke W cfg op options) ->
  exists prefix name resource_type upload_type,
    default (PStr "image") (options !! "resource_type") = PStr resource_type /\
    default (PStr "upload") (options !! "type") = PStr upload_type /\
    req_url rq =
      String.concat "/"
        ([prefix; "v1_1"; name; "resources"; resource_type; upload_type] ++ tail).
Proof.
  rewrite !elem_of_cons, elem_of_nil. intros Hop Hrq.
  repeat destruct Hop as [[= -> ->]|Hop]; try done; simpl in Hrq.
  all: unfold_wrappers_in Hrq; reach_call_api Hrq.
  all: apply call_api_url in Hrq as (p & n & segs & Hsegs & ->).
  all: rewrite lookup_delete_ne in Hsegs by done.
  all: repeat (destruct segs as [|? segs]; try discriminate).
  all: simpl in Hsegs; simplify_eq; simpl; eauto 10.
Qed.

(** X15: [resources] lists resources/<resource_type> and appends the
    [type] option only when it is given and not empty. *)
Theorem resources_appends_type_only_when_given W cfg options rq :
  rq ∈ sent (resources W cfg options) ->
  exists prefix name resource_type,
    default (PStr "image") (options !! "resource_type") = PStr resource_type /\
    ((truthy (default PNone (options !! "type")) = false /\
      req_url rq = String.concat "/" [prefix; "v1_1"; name; "resources"; resource_type])
     \/
     (exists upload_type,
        options !! "type" = Some (PStr upload_type) /\
        upload_type <> EmptyString /\
        req_url rq =
          String.concat "/"
            [prefix; "v1_1"; name; "resources"; resource_type; upload_type])).
Proof.
  intros Hrq. unfold_wrappers_in Hrq.
  rewrite lookup_delete_ne in Hrq by done.
  destruct (truthy (default PNone (options !! "type"))) eqn:Hty.
  - apply call_api_url in Hrq as (p & n & segs & Hsegs & ->).
    repeat (destruct segs as [|? segs]; try discriminate).
    simpl in Hsegs. injection Hsegs as <- Hrt Hut.
    destruct (options !! "type") as [ty|] eqn:Ho; simpl in *; [|discriminate].
    subst ty. exists p, n, s0. split; [done|]. right. exists s1.
    split; [done|]. split; [|done]. by intros ->.
  - apply call_api_url in Hrq as (p & n & segs & Hsegs & ->).
    repeat (destruct segs as [|? segs]; try discriminate).
    simpl in Hsegs. injection Hsegs as <- Hrt.
    exists p, n, s0. split; [done|]. by left.
Qed.

(** ** Parameters the operations set themselves *)


Lemma set_if_present_get key encode options params params' :
  set_if_present key encode options params = Ok params' ->
  (forall k, k <> key -> dict_get k params' = dict_get k params) /\
  (forall v, options !! key = Some v ->
             exists x, encode v = Ok x /\ dict_get key params' = Some x).
Proof.
  unfold set_if_present. destruct (options !! key) as [v|].
  - destruct (encode v) as [x|] eqn:He; simpl; [|discriminate].
    intros [= <-]. split.
    + intros k Hk. by apply dict_get_set_ne.
    + intros ? [= <-]. exists x. split; [done|]. apply dict_get_set_eq.
  - intros [= <-]. split; [done|discriminate].
Qed.

(** X17: when [update_transformation] does send, it is a PUT whose
    parameters are not empty and hold [allowed_for_strict] exactly as given
    (a false value counts as an update) and [unsafe_update] turned into a
    transformation string. *)
Theorem update_transformation_sends_updates W cfg t options rq :
  rq ∈ sent (update_transformation W cfg t options) ->
  req_method rq = "PUT" /\
  exists d,
    req_fields rq = FDict d /\ d <> [] /\
    dict_get "allowed_for_strict" d = options !! "allowed_for_strict" /\
    (forall u, options !! "unsafe_update" = Some u ->
       exists s, transformation_string W u = Ok s /\
                 dict_get "unsafe_update" d = Some s).
Proof.
  intros Hrq. unfold update_transformation in Hrq.
  apply sent_lift_bind in Hrq as (s & Hs & Hrq).
  apply sent_lift_bind in Hrq as (d & Hd & Hrq).
  destruct (negb (truthy (PDict d))) eqn:Hempty;
    [unfold sent, run, raise, lift in Hrq; simpl in Hrq; set_solver|].
  apply call_api_sent in Hrq as (_ & -> & _). simpl. split; [done|].
  exists d. split; [done|]. split; [by intros ->|].
  apply set_if_present_get in Hd as [Hother Hkey]. split.
  - rewrite Hother by done. by rewrite only_get.
  - intros u Hu. by apply Hkey.
Qed.

(** ** Arguments that are iterated *)



(** X19: the identifier argument is iterated, whatever it is: a value
    that cannot be iterated raises before any request, and otherwise there
    is one pair per element in iteration order, so that a single string is
    sent character by character. *)
Theorem identifiers_are_iterated W cfg op name values options :
  (op, name) ∈ [(ResourcesByIds values, "public_ids[]");
                (DeleteResources values, "public_ids[]");
                (Restore values, "public_ids[]");
                (DeleteDerivedResources values, "derived_resource_ids[]")] ->
  (forall e, py_iter values = Raise e ->
     run (invoke W cfg op options) = (Raise e, [])) /\
  (forall elements rq,
     py_iter values = Ok elements ->
     rq ∈ sent (invoke W cfg op options) ->
     exists optional,
       req_fields rq = FPairs (map (pair name) elements ++ optional) /\
       name ∉ map fst optional).
Proof.
  rewrite !elem_of_cons, elem_of_nil. intros Hop.
  repeat destruct Hop as [[= -> ->]|Hop]; try done.
  all: split.
  all: try (intros e He; simpl; unfold_wrappers; unfold pop; cbv zeta;
            rewrite run_lift_bind; unfold repeated; by rewrite He).
  all: intros elements rq He Hrq; simpl in Hrq; unfold_wrappers_in Hrq.
  all: apply sent_lift_bind in Hrq as (pairs & Hp & Hrq).
  all: unfold repeated in Hp; rewrite He in Hp; simpl in Hp; injection Hp as <-.
  all: apply call_api_sent_fields in Hrq.
  all: first [ exists []; rewrite app_nil_r; split; [exact Hrq|set_solver]
             | eexists; split; [exact Hrq|]; intros Hin%only_keys; set_solver ].
Qed.

(** ** Encodings and methods *)

(** X20: [update] is a POST that transmits [tags] joined by commas,
    the two coordinate options and [context] through their encoders, and
    [auto_tagging] as text; none of the five goes out as given. *)
Theorem update_encodes_special_options W cfg public_id options rq :
  rq ∈ sent (update W cfg public_id options) ->
  req_method rq = "POST" /\
  exists d,
    req_fields rq = FDict d /\
    (forall v, options !! "tags" = Some v ->
       exists a joined, build_array W v = Ok a /\ str_join "," a = Ok joined /\
                        dict_get "tags" d = Some (PStr joined)) /\
    (forall v, options !! "face_coordinates" = Some v ->
       exists x, encode_double_array W v = Ok x /\
                 dict_get "face_coordinates" d = Some x) /\
    (forall v, options !! "custom_coordinates" = Some v ->
       exists x, encode_double_array W v = Ok x /\
                 dict_get "custom_coordinates" d = Some x) /\
    (forall v, options !! "context" = Some v ->
       exists x, encode_dict W v = Ok x /\ dict_get "context" d = Some x) /\
    (forall v, options !! "auto_tagging" = Some v ->
       dict_get "auto_tagging" d = Some (PStr (str W v))).
Proof.
  intros Hrq. unfold_wrappers_in Hrq.
  apply sent_lift_bind in Hrq as (d1 & H1 & Hrq).
  apply sent_lift_bind in Hrq as (d2 & H2 & Hrq).
  apply sent_lift_bind in Hrq as (d3 & H3 & Hrq).
  apply sent_lift_bind in Hrq as (d4 & H4 & Hrq).
  apply sent_lift_bind in Hrq as (d5 & H5 & Hrq).
  apply call_api_sent in Hrq as (_ & -> & _). simpl. split; [done|].
  apply set_if_present_get in H1 as [O1 K1], H2 as [O2 K2], H3 as [O3 K3],
    H4 as [O4 K4], H5 as [O5 K5].
  rewrite !lookup_delete_ne in K1, K2, K3, K4, K5 by done.
  exists d5. split; [done|]. repeat split.
  - intros v Hv. destruct (K1 v Hv) as (x & Hx & Hget).
    destruct (build_array W v) as [a|] eqn:Ha; simpl in Hx; [|discriminate].
    destruct (str_join "," a) as [joined|] eqn:Hj; simpl in Hx; [|discriminate].
    injection Hx as <-. exists a, joined. split; [done|]. split; [done|].
    by rewrite O5, O4, O3, O2.
  - intros v Hv. destruct (K2 v Hv) as (x & Hx & Hget). exists x.
    split; [done|]. by rewrite O5, O4, O3.
  - intros v Hv. destruct (K3 v Hv) as (x & Hx & Hget). exists x.
    split; [done|]. by rewrite O5, O4.
  - intros v Hv. destruct (K4 v Hv) as (x & Hx & Hget). exists x.
    split; [done|]. by rewrite O5.
  - intros v Hv. destruct (K5 v Hv) as (x & [= <-] & Hget). done.
Qed.

(** X21: each operation sends the HTTP method of [http_method], in upper
    case however the wrapper spells it. *)
Theorem method_of_each_operation W cfg op options rq :
  rq ∈ sent (invoke W cfg op options) -> req_method rq = http_method op.
Proof.
  intros Hrq. destruct op; simpl in Hrq; unfold_wrappers_in Hrq.
  all: reach_call_api Hrq.
  all: try match type of Hrq with
           | _ ∈ sent (if ?b then _ else _) =>
               destruct b;
               [unfold sent, run, raise, lift in Hrq; simpl in Hrq; set_solver|]
           end.
  all: apply call_api_sent in Hrq as (_ & -> & _); reflexivity.
Qed.

(** X22: a transformation given as a dictionary goes through
    [generate_transformation_string]; its first result is the last path
    segment, and when the generator raises nothing is sent. *)
Theorem structured_transformation_is_normalised W cfg op d options :
  op ∈ [Transformation (PDict d); DeleteTransformation (PDict d);
        UpdateTransformation (PDict d)] ->
  (forall e, generate_transformation_string W d = Raise e ->
     run (invoke W cfg op options) = (Raise e, [])) /\
  (forall rq, rq ∈ sent (invoke W cfg op options) ->
     exists generated rest prefix name,
       generate_transformation_string W d = Ok (PStr generated, rest) /\
       req_url rq =
         String.concat "/" [prefix; "v1_1"; name; "transformations"; generated]).
Proof.
  rewrite !elem_of_cons, elem_of_nil. intros Hop.
  repeat destruct Hop as [->|Hop]; try done.
  all: split.
  all: try (intros e He; simpl; unfold_wrappers; rewrite run_lift_bind;
            unfold transformation_string; by rewrite He).
  all: intros rq Hrq; simpl in Hrq; unfold_wrappers_in Hrq.
  all: apply sent_lift_bind in Hrq as (t & Ht & Hrq).
  all: unfold transformation_string in Ht.
  all: destruct (generate_transformation_string W d) as [[g rest]|]; [|discriminate].
  all: simpl in Ht; injection Ht as <-.
  all: reach_call_api Hrq.
  all: try match type of Hrq with
           | _ ∈ sent (if ?b then _ else _) =>
               destruct b;
               [unfold sent, run, raise, lift in Hrq; simpl in Hrq; set_solver|]
           end.
  all: apply call_api_url in Hrq as (p & n & segs & Hsegs & ->).
  all: repeat (destruct segs as [|? segs]; try discriminate).
  all: simpl in Hsegs; injection Hsegs as <- ->; eauto 10.
Qed.

(** ** Upload presets *)

Lemma only_keys_NoDup (source : gmap string pyval) keys :
  NoDup keys -> NoDup (dict_keys (only source keys)).
Proof.
  intros Hnd. rewrite only_dict_keys by done. by apply NoDup_filter.
Qed.

Lemma dict_get_update_in {A} (d other : dict A) k v :
  NoDup (dict_keys other) ->
  dict_get k other = Some v ->
  dict_get k (dict_update d other) = Some v.
Proof.
  unfold dict_update. revert d.
  induction other as [|[k0 v0] other IH]; simpl; intros d Hnd Hget; [discriminate|].
  apply NoDup_cons in Hnd as [Hk0 Hnd].
  destruct (String.eqb_spec k k0) as [->|Hne].
  - injection Hget as ->.
    change (fold_left _ other ?x) with (dict_update x other).
    rewrite dict_get_update_other by done. apply dict_get_set_eq.
  - by apply IH.
Qed.

(** X23: for the upload presets, [unsigned], [disallow_public_id] and, on
    creation, [name] are transmitted as the caller gave them, over whatever
    [build_upload_params] produced. *)
Theorem preset_flags_override_upload_params W cfg op key options rq v :
  (op, key) ∈ [(CreateUploadPreset, "unsigned");
               (CreateUploadPreset, "disallow_public_id");
               (CreateUploadPreset, "name")]
  \/ (exists name, (op, key) ∈ [(UpdateUploadPreset name, "unsigned");
                                 (UpdateUploadPreset name, "disallow_public_id")]) ->
  options !! key = Some v ->
  rq ∈ sent (invoke W cfg op options) ->
  exists d, req_fields rq = FDict d /\ dict_get key d = Some v.
Proof.
  rewrite !elem_of_cons, elem_of_nil. intros Hop Hv Hrq.
  destruct Hop as [Hop|[name Hop]]; rewrite ?elem_of_cons, ?elem_of_nil in Hop.
  all: repeat destruct Hop as [[= -> ->]|Hop]; try done; simpl in Hrq.
  all: unfold_wrappers_in Hrq; reach_call_api Hrq.
  all: apply call_api_sent_fields in Hrq; eexists; split; [exact Hrq|].
  all: apply dict_get_update_in;
    [apply only_keys_NoDup; repeat constructor; set_solver
    |by rewrite only_get].
Qed.


(** ** The further properties at concrete calls *)

Ltac sent_here := vm_compute; apply list_elem_of_here.
Ltac conclude_from H := vm_compute in H; vm_compute; exact H.

(** A whitelist of three keys, two of them supplied. *)
Lemma only_keeps_whitelist_order_witness :
  dict_keys (only listing_options ["next_cursor"; "max_results"; "colour"]) =
    filter (fun k => is_Some (listing_options !! k))
      ["next_cursor"; "max_results"; "colour"].
Proof.
  apply (only_keeps_whitelist_order listing_options
           ["next_cursor"; "max_results"; "colour"]).
  apply (bool_decide_unpack _). vm_compute. exact I.
Defined.

(** [resource("pic")] without a cloud name. *)
Lemma no_request_without_cloud_name_or_key_witness :
  exists x,
    run (invoke healthy_world no_account_config (Resource (PStr "pic")) ∅)
      = (Raise x, []).
Proof.
  apply (no_request_without_cloud_name_or_key healthy_world no_account_config
           (Resource (PStr "pic")) ∅).
  left. reflexivity.
Defined.

(** [ping(timeout=30)] *)
Lemma timeout_and_credentials_forwarded_witness :
  req_timeout timed_ping_request = Some (PInt 30) /\
  req_headers timed_ping_request = make_headers "key:secret" "CloudinaryPython/1.8.0".
Proof.
  assert (timed_ping_request ∈
            sent (invoke healthy_world full_config Ping (<["timeout" := PInt 30]> ∅)))
    as Hsent by sent_here.
  pose proof (timeout_and_credentials_forwarded healthy_world full_config Ping
                (<["timeout" := PInt 30]> ∅) timed_ping_request Hsent) as H.
  conclude_from H.
Defined.

(** [resources(max_results=10, resource_type="raw", colour="red")] *)
Lemma url_under_account_base_witness :
  exists prefix name segments,
    py_or (default (upload_prefix full_config) (listing_options !! "upload_prefix"))
      (PStr "https://api.cloudinary.com") = PStr prefix /\
    default (cloud_name full_config) (listing_options !! "cloud_name") = PStr name /\
    name <> EmptyString /\
    req_url listing_request =
      String.concat "/" (prefix :: "v1_1" :: name :: segments).
Proof.
  apply (url_under_account_base healthy_world full_config Resources listing_options
           listing_request).
  sent_here.
Defined.

(** [ping()] against a port that refuses the connection. *)
Lemma socket_error_in_any_operation_witness :
  yields (invoke refused_world full_config Ping ∅) =
    Raise (mk_exn GeneralError [PStr "Socket Error: [Errno 111] Connection refused"]).
Proof.
  apply (socket_error_in_any_operation refused_world full_config Ping ∅
           ping_request connection_refused).
  - sent_here.
  - reflexivity.
Defined.

(** [ping()] answered by a gateway with an HTML page. *)
Lemma unparsable_body_raises_general_error_witness :
  yields (invoke gateway_world full_config Ping ∅) =
    Raise (mk_exn GeneralError
             [PStr ("Error parsing server response (" +:+ pretty (status gateway_response)
                      +:+ ") - " +:+ bytes_str gateway_world (data gateway_response)
                      +:+ ". Got - " +:+ "Expecting value: line 1 column 1")]).
Proof.
  apply (unparsable_body_raises_general_error gateway_world full_config Ping ∅
           ping_request gateway_response).
  - sent_here.
  - reflexivity.
  - reflexivity.
Defined.

(** [ping()] answered with the document [null]. *)
Lemma scalar_body_raises_type_error_witness :
  exists x,
    yields (invoke null_world full_config Ping ∅) = Raise x /\
    exn_type x = TypeError /\
    issubclass (exn_type x) Error = false.
Proof.
  apply (scalar_body_raises_type_error null_world full_config Ping ∅ ping_request
           (mk_response 200 rate_limit_headers "{}") PNone).
  - sent_here.
  - reflexivity.
  - reflexivity.
  - apply list_elem_of_here.
Defined.

(** [ping()] answered with {"error": "boom"}. *)
Lemma malformed_error_payload_escapes_taxonomy_witness :
  exists x,
    yields (invoke plain_error_world full_config Ping ∅) = Raise x /\
    (exn_type x = KeyError \/ exn_type x = TypeError) /\
    issubclass (exn_type x) Error = false.
Proof.
  apply (malformed_error_payload_escapes_taxonomy plain_error_world full_config
           Ping ∅ ping_request (mk_response 400 ∅ "{}")
           [("error", PStr "boom")] (PStr "boom")).
  - sent_here.
  - reflexivity.
  - reflexivity.
  - reflexivity.
  - discriminate.
Defined.

(** [ping()] answered with status 200 and an error body. *)
Lemma error_key_decides_not_status_witness :
  exists x, yields (invoke ok_with_error_world full_config Ping ∅) = Raise x.
Proof.
  refine (proj1 (error_key_decides_not_status ok_with_error_world full_config
                   Ping ∅ ping_request (mk_response 200 rate_limit_headers "{}")
                   [("error", PDict [("message", PStr "quota exceeded")])] _ _ _) _).
  - sent_here.
  - reflexivity.
  - reflexivity.
  - eexists. reflexivity.
Defined.

(** The entry for 404. *)
Lemma mapped_classes_derive_from_Error_witness :
  base NotFound = Some Error /\ issubclass NotFound Error = true /\
  forall code', EXCEPTION_CODES !! code' = Some NotFound -> code' = 404.
Proof. apply (mapped_classes_derive_from_Error 404 NotFound). reflexivity. Defined.

(** A public id that is the integer 5. *)
Lemma non_string_segment_sends_nothing_witness :
  exists x,
    run (call_api healthy_world full_config "get"
           [PStr "resources"; PStr "image"; PStr "upload"; PInt 5] (FDict []) ∅)
      = (Raise x, []) /\
    (exn_type x = TypeError \/ exn_type x = Exception).
Proof.
  apply (non_string_segment_sends_nothing healthy_world full_config "get"
           [PStr "resources"; PStr "image"; PStr "upload"; PInt 5] (FDict []) ∅
           (PInt 5)).
  - do 3 apply list_elem_of_further. apply list_elem_of_here.
  - discriminate.
Defined.

(** [delete_resources(["cat", "dog", "cat"], invalidate=True, colour="red")] *)
Lemma delivery_type_defaults_witness :
  exists prefix name resource_type upload_type,
    PStr "image" = PStr resource_type /\
    PStr "upload" = PStr upload_type /\
    req_url deletion_request =
      String.concat "/"
        [prefix; "v1_1"; name; "resources"; resource_type; upload_type].
Proof.
  assert (deletion_request ∈
            sent (invoke healthy_world full_config
                    (DeleteResources (PList [PStr "cat"; PStr "dog"; PStr "cat"]))
                    (<["invalidate" := PBool true]> (<["colour" := PStr "red"]> ∅))))
    as Hsent by sent_here.
  assert ((DeleteResources (PList [PStr "cat"; PStr "dog"; PStr "cat"]),
           @nil string) ∈
            [(ResourcesByIds (PList [PStr "cat"; PStr "dog"; PStr "cat"]), []);
             (Resource (PStr "pic"), ["pic"]); (Update (PStr "pic"), ["pic"]);
             (DeleteResources (PList [PStr "cat"; PStr "dog"; PStr "cat"]), []);
             (DeleteResourcesByPrefix PNone, []); (DeleteAllResources, []);
             (Restore (PList [PStr "cat"; PStr "dog"; PStr "cat"]), ["restore"])])
    as Hop by (do 3 apply list_elem_of_further; apply list_elem_of_here).
  destruct (delivery_type_defaults healthy_world full_config _ _ _ _ _ _ _ Hop Hsent)
    as (p & n & rt & ut & Hrt & Hut & Hurl).
  exists p, n, rt, ut. split; [exact Hrt|]. split; [exact Hut|]. exact Hurl.
Defined.

(** [resources(max_results=10, resource_type="raw", colour="red")] *)
Lemma resources_appends_type_only_when_given_witness :
  exists prefix name resource_type,
    default (PStr "image") (listing_options !! "resource_type") = PStr resource_type /\
    ((truthy (default PNone (listing_options !! "type")) = false /\
      req_url listing_request =
        String.concat "/" [prefix; "v1_1"; name; "resources"; resource_type])
     \/
     (exists upload_type,
        listing_options !! "type" = Some (PStr upload_type) /\
        upload_type <> EmptyString /\
        req_url listing_request =
          String.concat "/"
            [prefix; "v1_1"; name; "resources"; resource_type; upload_type])).
Proof.
  apply (resources_appends_type_only_when_given healthy_world full_config
           listing_options listing_request).
  sent_here.
Defined.


(** [update_transformation("c_scale,w_100", allowed_for_strict=False)] *)
Lemma update_transformation_sends_updates_witness :
  req_method strict_update_request = "PUT" /\
  exists d,
    req_fields strict_update_request = FDict d /\ d <> [] /\
    dict_get "allowed_for_strict" d = Some (PBool false).
Proof.
  assert (strict_update_request ∈
            sent (update_transformation healthy_world full_config
                    (PStr "c_scale,w_100")
                    (<["allowed_for_strict" := PBool false]> ∅)))
    as Hsent by sent_here.
  destruct (update_transformation_sends_updates healthy_world full_config
              (PStr "c_scale,w_100") (<["allowed_for_strict" := PBool false]> ∅)
              strict_update_request Hsent) as (Hm & d & Hd & Hne & Hget & _).
  split; [exact Hm|]. exists d. split; [exact Hd|]. split; [exact Hne|].
  rewrite Hget. vm_compute. reflexivity.
Defined.


(** [delete_resources("cat")] *)
Lemma identifiers_are_iterated_witness :
  exists optional,
    req_fields spelled_deletion_request =
      FPairs (map (pair "public_ids[]") [PStr "c"; PStr "a"; PStr "t"] ++ optional) /\
    "public_ids[]" ∉ map fst optional.
Proof.
  refine (proj2 (identifiers_are_iterated healthy_world full_config
                   (DeleteResources (PStr "cat")) "public_ids[]" (PStr "cat") ∅ _)
            [PStr "c"; PStr "a"; PStr "t"] spelled_deletion_request _ _).
  - apply list_elem_of_further. apply list_elem_of_here.
  - reflexivity.
  - sent_here.
Defined.

(** [update("pic", tags=["a", "b"], auto_tagging=0.5)] *)
Lemma update_encodes_special_options_witness :
  req_method tagging_request = "POST" /\
  exists d,
    req_fields tagging_request = FDict d /\
    dict_get "tags" d = Some (PStr "a,b") /\
    dict_get "auto_tagging" d = Some (PStr "0.5").
Proof.
  assert (tagging_request ∈
            sent (update healthy_world full_config (PStr "pic") tagging_options))
    as Hsent by sent_here.
  destruct (update_encodes_special_options healthy_world full_config (PStr "pic")
              tagging_options tagging_request Hsent)
    as (Hm & d & Hd & Htags & _ & _ & _ & Hauto).
  assert (tagging_options !! "tags" = Some (PList [PStr "a"; PStr "b"]))
    as Ht by (vm_compute; reflexivity).
  assert (tagging_options !! "auto_tagging" = Some (PFloat "0.5"))
    as Ha by (vm_compute; reflexivity).
  split; [exact Hm|]. exists d. split; [exact Hd|]. split.
  - destruct (Htags _ Ht) as (a & joined & Hb & Hj & Hget).
    injection Hb as <-. injection Hj as <-. exact Hget.
  - exact (Hauto _ Ha).
Defined.

(** [delete_resources(...)] is a DELETE. *)
Lemma method_of_each_operation_witness :
  req_method deletion_request = "DELETE".
Proof.
  apply (method_of_each_operation healthy_world full_config
           (DeleteResources (PList [PStr "cat"; PStr "dog"; PStr "cat"]))
           (<["invalidate" := PBool true]> (<["colour" := PStr "red"]> ∅))
           deletion_request).
  sent_here.
Defined.

(** [transformation({"width": 100})] *)
Lemma structured_transformation_is_normalised_witness :
  exists generated rest prefix name,
    generate_transformation_string healthy_world [("width", PInt 100)] =
      Ok (PStr generated, rest) /\
    req_url fill_request =
      String.concat "/" [prefix; "v1_1"; name; "transformations"; generated].
Proof.
  refine (proj2 (structured_transformation_is_normalised healthy_world full_config
                   (Transformation (PDict [("width", PInt 100)]))
                   [("width", PInt 100)] ∅ _) fill_request _).
  - apply list_elem_of_here.
  - sent_here.
Defined.

(** [create_upload_preset(unsigned=True, tags="x")] *)
Lemma preset_flags_override_upload_params_witness :
  exists d, req_fields preset_request = FDict d /\ dict_get "unsigned" d = Some (PBool true).
Proof.
  apply (preset_flags_override_upload_params healthy_world full_config
           CreateUploadPreset "unsigned" preset_options preset_request (PBool true)).
  - left. apply list_elem_of_here.
  - vm_compute. reflexivity.
  - sent_here.
Defined.
